(** * Iris classification API: the request handlers of [app.py]

    A shallow embedding of the two POST handlers of the Flask service,
    [predict] and [predict_multiple], together with the Python operations
    they use on the parsed request body.  The trained classifier, the
    scaler and numpy are collaborators of the handlers: they are taken as
    the fields of a [Runtime] record, and every invocation of the scaler or
    of the classifier is recorded in a call log, so that statements such as
    "no inference is performed" can be made about the handlers. *)

From Stdlib Require Import QArith Qabs.
From stdpp Require Import gmap strings list fin_maps.

Set Warnings "-register-all,-clear-no-such-hyp".
Open Scope string_scope.

(** ** Python values obtained from a JSON body *)

(** A Python [float].  The finite values are carried as rationals, which
    also hold every Python [int] exactly: Python compares an [int] with a
    [float] by value, without rounding. *)
Inductive pyfloat :=
| FFinite (q : Q)
| FNan
| FPosInf
| FNegInf.

(** What [request.get_json()] returns.  A JSON object becomes a [dict]
    with string keys, a JSON number an [int] or a [float]. *)
Inductive json :=
| JNull
| JBool (b : bool)
| JInt (z : Z)
| JFloat (f : pyfloat)
| JStr (s : string)
| JArr (l : list json)
| JObj (m : gmap string json).

(** The exceptions that the handlers can meet.  [LibraryError] stands for
    anything raised inside numpy or scikit-learn. *)
Inductive exn :=
| KeyError (key : json)
| TypeError (what : string)
| AttributeError (attr : string)
| IndexError
| ValueError (what : string)
| OverflowError
| LibraryError (msg : string).

Inductive result (A : Type) :=
| Ok (a : A)
| Raise (e : exn).
Arguments Ok {A} a.
Arguments Raise {A} e.

#[global] Instance result_ret : MRet result := λ A a, Ok a.
#[global] Instance result_bind : MBind result := λ A B f r,
  match r with
  | Ok a => f a
  | Raise e => Raise e
  end.

(** ** The call log *)

(** The three operations of the trained collaborators. *)
Inductive call :=
| ScalerTransform
| ModelPredict
| ModelPredictProba.

(** A handler step: the calls made so far, and a value or an exception. *)
Definition M (A : Type) : Type := (list call * result A)%type.

#[global] Instance M_ret : MRet M := λ A a, ([], Ok a).
#[global] Instance M_bind : MBind M := λ A B f m,
  match m with
  | (t, Ok a) => let '(t', r) := f a in ((t ++ t')%list, r)
  | (t, Raise e) => (t, Raise e)
  end.

(** A step that calls no collaborator. *)
Definition lift {A} (r : result A) : M A := ([], r).

(** A step that invokes collaborator operation [c]. *)
Definition invoke {A} (c : call) (r : result A) : M A := ([c], r).

(** ** The collaborators *)

Record Runtime := {
  (** the type of numpy arrays *)
  ndarray : Type;
  (** [np.array(rows)] *)
  np_array : list (list json) → result ndarray;
  (** [scaler.transform(features)] *)
  scaler_transform : ndarray → result ndarray;
  (** [model.predict(features_scaled)], one class index per row *)
  model_predict : ndarray → result (list Z);
  (** [model.predict_proba(features_scaled)], one row of class
      probabilities per row *)
  model_predict_proba : ndarray → result (list (list Q));
  (** [str(e)] *)
  str_exn : exn → string;
  (** [float(s)] for a [str] *)
  float_of_str : string → result pyfloat;
  (** [float(n)] for an [int] beyond 2^53 in magnitude, where the
      conversion rounds or overflows *)
  float_of_big_int : Z → result pyfloat
}.

(** ** Python operations on the parsed body *)

(** [a <= b] on floats; every comparison with NaN is false. *)
Definition float_le (a b : pyfloat) : bool :=
  match a, b with
  | FNan, _ | _, FNan => false
  | FNegInf, _ => true
  | _, FPosInf => true
  | FPosInf, _ => false
  | _, FNegInf => false
  | FFinite x, FFinite y => Qle_bool x y
  end.

(** The numeric value of an [int], [float] or [bool]. *)
Definition as_number (x : json) : option pyfloat :=
  match x with
  | JBool b => Some (FFinite (if b then 1 else 0))
  | JInt z => Some (FFinite (inject_Z z))
  | JFloat f => Some f
  | _ => None
  end.

(** [lo <= x <= hi] for numeric literals [lo] and [hi]: [x] is evaluated
    once, and the first comparison raises TypeError when [x] is not a
    number. *)
Definition chained_le (lo : Q) (x : json) (hi : Q) : result bool :=
  match as_number x with
  | None => Raise (TypeError "<=")
  | Some v => Ok (float_le (FFinite lo) v && float_le v (FFinite hi))
  end.

(** [s in t] for two strings. *)
Definition is_substring (s t : string) : bool :=
  match String.index 0 s t with
  | Some _ => true
  | None => false
  end.

(** [x == s] for a string [s]. *)
Definition eq_str (x : json) (s : string) : bool :=
  match x with
  | JStr s' => bool_decide (s' = s)
  | _ => false
  end.

(** [feature in data] *)
Definition py_contains (data : json) (feature : string) : result bool :=
  match data with
  | JObj m => Ok (bool_decide (is_Some (m !! feature)))
  | JArr l => Ok (existsb (λ x, eq_str x feature) l)
  | JStr s => Ok (is_substring feature s)
  | _ => Raise (TypeError "in")
  end.

(** [all(feature in data for feature in features)]: the generator stops
    at the first feature that is absent. *)
Fixpoint py_all_in (features : list string) (data : json) : result bool :=
  match features with
  | [] => Ok true
  | feature :: rest =>
      match py_contains data feature with
      | Raise e => Raise e
      | Ok false => Ok false
      | Ok true => py_all_in rest data
      end
  end.

(** [data[key]] for a string [key]. *)
Definition py_getitem (data : json) (key : string) : result json :=
  match data with
  | JObj m =>
      match m !! key with
      | Some v => Ok v
      | None => Raise (KeyError (JStr key))
      end
  | _ => Raise (TypeError "subscript")
  end.

(** [data.get(key, dflt)] *)
Definition py_get (data : json) (key : string) (dflt : json) : result json :=
  match data with
  | JObj m => Ok (default dflt (m !! key))
  | _ => Raise (AttributeError "get")
  end.

(** [bool(x)], as tested by [not x]. *)
Definition py_truthy (x : json) : bool :=
  match x with
  | JNull => false
  | JBool b => b
  | JInt z => negb (z =? 0)%Z
  | JFloat (FFinite q) => negb (Qeq_bool q 0)
  | JFloat _ => true
  | JStr s => negb (bool_decide (s = ""))
  | JArr l => negb (length l =? 0)%nat
  | JObj m => negb (size m =? 0)%nat
  end.

(** The one-character strings that iterating over a [str] yields. *)
Fixpoint chars (s : string) : list json :=
  match s with
  | EmptyString => []
  | String c rest => JStr (String c EmptyString) :: chars rest
  end.

(** The items that [enumerate(x)] goes through.  A [dict] yields its keys;
    their order is that of [map_to_list], not the insertion order. *)
Definition py_iter (x : json) : result (list json) :=
  match x with
  | JArr l => Ok l
  | JObj m => Ok ((λ kv, JStr kv.1) <$> map_to_list m)
  | JStr s => Ok (chars s)
  | _ => Raise (TypeError "iter")
  end.

(** [l[i]] on a sequence. *)
Definition py_index {A} (l : list A) (i : nat) : result A :=
  match l !! i with
  | Some a => Ok a
  | None => Raise IndexError
  end.

(** [max(l)]: the running maximum is replaced by an item only when the
    item is strictly greater. *)
Definition py_max (l : list Q) : result Q :=
  match l with
  | [] => Raise (ValueError "max")
  | x :: rest =>
      Ok (fold_left (λ maxval item, if Qle_bool item maxval then maxval else item) rest x)
  end.

(** Species mapping *)
Definition SPECIES_MAP : gmap Z string :=
  {[ 0%Z := "setosa"; 1%Z := "versicolor"; 2%Z := "virginica" ]}.

(** [SPECIES_MAP[prediction]] *)
Definition species_of (prediction : Z) : result string :=
  match SPECIES_MAP !! prediction with
  | Some species => Ok species
  | None => Raise (KeyError (JInt prediction))
  end.

(** The literal [0.1] denotes the binary64 number nearest to one tenth. *)
Definition float_0_1 : Q := 3602879701896397 # 36028797018963968.

(** The bounds of the range check of [predict], per feature. *)
Definition range_profile : list (string * (Q * Q)) :=
  [ ("sepal_length", (4, 8));
    ("sepal_width", (2, 9 # 2));
    ("petal_length", (1, 7));
    ("petal_width", (float_0_1, 5 # 2)) ]%Q.

Record response := Response { status : Z; body : json }.

(** [jsonify(d)] and [jsonify(d), code] *)
Definition jsonify (d : gmap string json) : response := Response 200 (JObj d).
Definition jsonify_status (d : gmap string json) (code : Z) : response :=
  Response code (JObj d).

(** [try: ... except Exception as e: ...] around a handler body: the calls
    made before the exception stay made. *)
Definition try_except (m : M response) (handler : exn → response)
  : list call * response :=
  match m with
  | (t, Ok r) => (t, r)
  | (t, Raise e) => (t, handler e)
  end.

Section Handlers.

Variable R : Runtime.

(** [float(x)] *)
Definition py_float (x : json) : result pyfloat :=
  match x with
  | JBool b => Ok (FFinite (if b then 1 else 0))
  | JInt z =>
      if (Z.abs z <=? 2 ^ 53)%Z then Ok (FFinite (inject_Z z))
      else float_of_big_int R z
  | JFloat f => Ok f
  | JStr s => float_of_str R s
  | _ => Raise (TypeError "float")
  end.

Definition required_features : list string :=
  ["sepal_length"; "sepal_width"; "petal_length"; "petal_width"].

(** [lo <= data[key] <= hi] *)
Definition in_interval (data : json) (key : string) (lo hi : Q) : result bool :=
  x ← py_getitem data key; chained_le lo x hi.

(** The condition of lines 78 to 81: a conjunction that stops at the
    first interval that fails. *)
Definition in_typical_range (data : json) : result bool :=
  b1 ← in_interval data "sepal_length" 4 8;
  if negb b1 then Ok false else
  b2 ← in_interval data "sepal_width" 2 (9 # 2);
  if negb b2 then Ok false else
  b3 ← in_interval data "petal_length" 1 7;
  if negb b3 then Ok false else
  in_interval data "petal_width" float_0_1 (5 # 2).

(** The body of the [try] block of [predict]. *)
Definition predict_body (data : json) : M response :=
  present ← lift (py_all_in required_features data);
  if negb present then
    mret (jsonify_status
            {[ "error" := JStr "Missing required features";
               "required" := JArr (JStr <$> required_features) ]} 400)
  else
    sepal_length ← lift (py_getitem data "sepal_length");
    sepal_width ← lift (py_getitem data "sepal_width");
    petal_length ← lift (py_getitem data "petal_length");
    petal_width ← lift (py_getitem data "petal_width");
    features ← lift (np_array R [[sepal_length; sepal_width; petal_length; petal_width]]);
    typical ← lift (in_typical_range data);
    if negb typical then
      mret (jsonify_status
              {[ "warning" := JStr "Measurements outside typical Iris range";
                 "predicted_species" := JStr "unknown" ]} 200)
    else
      features_scaled ← invoke ScalerTransform (scaler_transform R features);
      predictions ← invoke ModelPredict (model_predict R features_scaled);
      prediction ← lift (py_index predictions 0);
      all_probabilities ← invoke ModelPredictProba (model_predict_proba R features_scaled);
      probabilities ← lift (py_index all_probabilities 0);
      species ← lift (species_of prediction);
      confidence ← lift (py_max probabilities);
      p_setosa ← lift (py_index probabilities 0);
      p_versicolor ← lift (py_index probabilities 1);
      p_virginica ← lift (py_index probabilities 2);
      m_sepal_length ← lift (py_getitem data "sepal_length" ≫= py_float);
      m_sepal_width ← lift (py_getitem data "sepal_width" ≫= py_float);
      m_petal_length ← lift (py_getitem data "petal_length" ≫= py_float);
      m_petal_width ← lift (py_getitem data "petal_width" ≫= py_float);
      mret (jsonify
              {[ "predicted_species" := JStr species;
                 "confidence" := JFloat (FFinite confidence);
                 "probabilities" := JObj
                   {[ "setosa" := JFloat (FFinite p_setosa);
                      "versicolor" := JFloat (FFinite p_versicolor);
                      "virginica" := JFloat (FFinite p_virginica) ]};
                 "measurements" := JObj
                   {[ "sepal_length" := JFloat m_sepal_length;
                      "sepal_width" := JFloat m_sepal_width;
                      "petal_length" := JFloat m_petal_length;
                      "petal_width" := JFloat m_petal_width ]} ]}).

(** Predict Iris species from measurements *)
Definition predict (data : json) : list call * response :=
  try_except (predict_body data)
    (λ e, jsonify_status
            {[ "error" := JStr "Prediction failed";
               "message" := JStr (str_exn R e) ]} 500).

(** One turn of the loop of [predict_multiple], for the sample at
    position [i]: the entry appended to [results]. *)
Definition batch_entry (i : nat) (sample : json) : M json :=
  sepal_length ← lift (py_getitem sample "sepal_length");
  sepal_width ← lift (py_getitem sample "sepal_width");
  petal_length ← lift (py_getitem sample "petal_length");
  petal_width ← lift (py_getitem sample "petal_width");
  features ← lift (np_array R [[sepal_length; sepal_width; petal_length; petal_width]]);
  features_scaled ← invoke ScalerTransform (scaler_transform R features);
  predictions ← invoke ModelPredict (model_predict R features_scaled);
  prediction ← lift (py_index predictions 0);
  all_probabilities ← invoke ModelPredictProba (model_predict_proba R features_scaled);
  probabilities ← lift (py_index all_probabilities 0);
  species ← lift (species_of prediction);
  confidence ← lift (py_max probabilities);
  mret (JObj {[ "sample_id" := JInt (Z.of_nat i);
                "predicted_species" := JStr species;
                "confidence" := JFloat (FFinite confidence);
                "measurements" := sample ]}).

(** [for i, sample in enumerate(samples): ... results.append(...)], from
    position [i] on, with the entries gathered so far. *)
Fixpoint batch_loop (i : nat) (samples : list json) (results : list json)
  : M (list json) :=
  match samples with
  | [] => mret results
  | sample :: rest =>
      entry ← batch_entry i sample;
      batch_loop (S i) rest (results ++ [entry])
  end.

(** The body of the [try] block of [predict_multiple]. *)
Definition predict_multiple_body (data : json) : M response :=
  samples ← lift (py_get data "samples" (JArr []));
  if negb (py_truthy samples) then
    mret (jsonify_status {[ "error" := JStr "No samples provided" ]} 400)
  else
    items ← lift (py_iter samples);
    results ← batch_loop 0 items [];
    mret (jsonify
            {[ "total_samples" := JInt (Z.of_nat (length results));
               "predictions" := JArr results ]}).

(** Predict multiple Iris samples *)
Definition predict_multiple (data : json) : list call * response :=
  try_except (predict_multiple_body data)
    (λ e, jsonify_status
            {[ "error" := JStr "Batch prediction failed";
               "message" := JStr (str_exn R e) ]} 500).

End Handlers.

(** ** A small concrete runtime

    Arrays are kept as their rows, the scaler centres the petal length,
    and the classifier is a decision stump on the scaled petal length.
    It raises, like scikit-learn, on a cell that is not a finite number. *)
Module Stump.

Definition cell_value (x : json) : result Q :=
  match as_number x with
  | Some (FFinite q) => Ok q
  | _ => Raise (LibraryError "could not convert to a finite float")
  end.

Definition transform (rows : list (list json)) : result (list (list json)) :=
  match rows with
  | [[a; b; c; d]] =>
      q ← cell_value c;
      _ ← cell_value a; _ ← cell_value b; _ ← cell_value d;
      Ok [[a; b; JFloat (FFinite (q - 3)); d]]
  | _ => Raise (LibraryError "expected one row of four features")
  end.

Definition scaled_petal_length (rows : list (list json)) : result Q :=
  match rows with
  | [[_; _; c; _]] => cell_value c
  | _ => Raise (LibraryError "expected one row of four features")
  end.

Definition classify (rows : list (list json)) : result (list Z) :=
  q ← scaled_petal_length rows;
  Ok [if Qle_bool q (-1) then 0%Z else if Qle_bool q 2 then 1%Z else 2%Z].

Definition classify_proba (rows : list (list json)) : result (list (list Q)) :=
  q ← scaled_petal_length rows;
  Ok [if Qle_bool q (-1) then [1; 0; 0]
      else if Qle_bool q 2 then [1 # 8; 3 # 4; 1 # 8]
      else [0; 1 # 4; 3 # 4]]%Q.

Definition runtime : Runtime := {|
  ndarray := list (list json);
  np_array := λ rows, Ok rows;
  scaler_transform := transform;
  model_predict := classify;
  model_predict_proba := classify_proba;
  str_exn := λ e,
    match e with
    | KeyError (JStr k) => "'" +:+ k +:+ "'"
    | LibraryError msg => msg
    | _ => "error"
    end;
  float_of_str := λ _, Raise (ValueError "float");
  float_of_big_int := λ _, Raise OverflowError
|}.

(** A request within the typical range, with short petals. *)
Definition setosa_sample : gmap string json :=
  {[ "sepal_length" := JInt 5;
     "sepal_width" := JFloat (FFinite (7 # 2));
     "petal_length" := JFloat (FFinite (3 # 2));
     "petal_width" := JFloat (FFinite (1 # 4)) ]}.

(** A sample whose petal width is far outside the typical range. *)
Definition wide_sample : gmap string json :=
  {[ "sepal_length" := JInt 6;
     "sepal_width" := JInt 3;
     "petal_length" := JFloat (FFinite (11 # 2));
     "petal_width" := JInt 99 ]}.

Definition setosa_row : list json :=
  [JInt 5; JFloat (FFinite (7 # 2)); JFloat (FFinite (3 # 2));
   JFloat (FFinite (1 # 4))].

Definition wide_row : list json :=
  [JInt 6; JInt 3; JFloat (FFinite (11 # 2)); JInt 99].

End Stump.

(** ** The vocabulary of the specification *)

(** The value of a finite JSON number. *)
Definition real_of (x : json) : option Q :=
  match x with
  | JInt z => Some (inject_Z z)
  | JFloat (FFinite q) => Some q
  | _ => None
  end.

(** A JSON number, as parsed: an [int] or a [float]. *)
Definition is_number (x : json) : Prop :=
  match x with
  | JInt _ | JFloat _ => True
  | _ => False
  end.

(** [x] is a finite number of the closed interval from [lo] to [hi]. *)
Definition within (lo hi : Q) (x : json) : Prop :=
  ∃ q, real_of x = Some q ∧ (lo <= q)%Q ∧ (q <= hi)%Q.

(** A complete feature vector: the four keys, each with a number. *)
Definition complete (m : gmap string json) : Prop :=
  Forall (λ key, ∃ x, m !! key = Some x ∧ is_number x) required_features.

(** Every feature lies within its interval of the range profile. *)
Definition typical (m : gmap string json) : Prop :=
  Forall (λ '(key, (lo, hi)), ∃ x, m !! key = Some x ∧ within lo hi x)
         range_profile.

(** Some feature lies outside its interval of the range profile. *)
Definition atypical (m : gmap string json) : Prop :=
  Exists (λ '(key, (lo, hi)), ∃ x, m !! key = Some x ∧ ¬ within lo hi x)
         range_profile.

(** The row that both handlers hand to [np.array]. *)
Definition row_of (m : gmap string json) : option (list json) :=
  a ← m !! "sepal_length"; b ← m !! "sepal_width";
  c ← m !! "petal_length"; d ← m !! "petal_width";
  Some [a; b; c; d].

(** On the row [row] numpy, the scaler and the classifier all answer: the
    class index of the row is [k] and its class probabilities [probs]. *)
Definition infers (R : Runtime) (row : list json) (k : Z) (probs : list Q) : Prop :=
  ∃ features features_scaled ks rest,
    np_array R [row] = Ok features
    ∧ scaler_transform R features = Ok features_scaled
    ∧ model_predict R features_scaled = Ok (k :: ks)
    ∧ model_predict_proba R features_scaled = Ok (probs :: rest).

(** A rational with a significand of at most 53 bits, as every finite
    binary64 number is. *)
Definition dyadic53 (q : Q) : Prop :=
  ∃ (m : Z) (k : nat),
    (Z.abs m < 2 ^ 53)%Z
    ∧ (q == inject_Z m / inject_Z (2 ^ Z.of_nat k)
       ∨ q == inject_Z (m * 2 ^ Z.of_nat k))%Q.

(** The three class labels. *)
Definition species_names : list string := ["setosa"; "versicolor"; "virginica"].

(** [x] is the greatest element of [l]. *)
Definition is_max (x : Q) (l : list Q) : Prop :=
  x ∈ l ∧ Forall (λ y, (y <= x)%Q) l.

(** The three invocations that one inference makes. *)
Definition inference_calls : list call :=
  [ScalerTransform; ModelPredict; ModelPredictProba].

(** ** Replies, and what they say *)

(** The reply of [predict] to a body without all four features. *)
Definition missing_features_reply : response :=
  Response 400
    (JObj {[ "error" := JStr "Missing required features";
             "required" := JArr [JStr "sepal_length"; JStr "sepal_width";
                                 JStr "petal_length"; JStr "petal_width"] ]}).

(** The reply of [predict] to measurements outside the typical range. *)
Definition unknown_reply : response :=
  Response 200
    (JObj {[ "warning" := JStr "Measurements outside typical Iris range";
             "predicted_species" := JStr "unknown" ]}).

(** The value under [key] of a response body, when the body is an object
    that has the key. *)
Definition field (r : response) (key : string) : option json :=
  match body r with
  | JObj m => m !! key
  | _ => None
  end.

(** numpy builds the one-row array of the four features of [m]. *)
Definition builds (R : Runtime) (m : gmap string json) : Prop :=
  ∃ row features, row_of m = Some row ∧ np_array R [row] = Ok features.

(** The label of a reply. *)
Definition label_of (r : response) : option string :=
  match field r "predicted_species" with
  | Some (JStr species) => Some species
  | _ => None
  end.

(** The confidence of a reply. *)
Definition confidence_of (r : response) : option Q :=
  match field r "confidence" with
  | Some (JFloat (FFinite c)) => Some c
  | _ => None
  end.

(** The probability values of a reply, in the order of [species_names],
    when the reply has a probability for each of the three labels and for
    nothing else. *)
Definition probabilities_of (r : response) : option (list Q) :=
  match field r "probabilities" with
  | Some (JObj ps) =>
      if (size ps =? 3)%nat then
        mapM (λ name, match ps !! name with
                      | Some (JFloat (FFinite p)) => Some p
                      | _ => None
                      end) species_names
      else None
  | _ => None
  end.

(** [sum(l)] *)
Definition total (l : list Q) : Q := fold_left Qplus l 0%Q.

(** The probabilities sum to one within a millionth. *)
Definition sums_to_one (l : list Q) : Prop :=
  (Qabs (total l - 1) <= 1 # 1000000)%Q.

(** The entry that [predict_multiple] appends for the sample at position
    [i]. *)
Definition batch_reply_entry (i : nat) (species : string) (confidence : Q)
    (sample : json) : json :=
  JObj {[ "sample_id" := JInt (Z.of_nat i);
          "predicted_species" := JStr species;
          "confidence" := JFloat (FFinite confidence);
          "measurements" := sample ]}.

(** The sample has the four keys, and the scaler and the classifier
    answer on its row with a class index among 0, 1, 2 and at least one
    probability.  The values under the keys are not constrained. *)
Definition processable (R : Runtime) (sample : json) : Prop :=
  ∃ m row k probs,
    sample = JObj m ∧ row_of m = Some row ∧ infers R row k probs
    ∧ (0 ≤ k ≤ 2)%Z ∧ probs ≠ [].

(** [entry] is the entry of the processable [sample] at position [i]: its
    label is the species of the class index, and its confidence is the
    greatest class probability. *)
Definition entry_for (R : Runtime) (i : nat) (sample entry : json) : Prop :=
  ∃ m row k probs species confidence,
    sample = JObj m ∧ row_of m = Some row ∧ infers R row k probs
    ∧ species_of k = Ok species ∧ species ∈ species_names
    ∧ is_max confidence probs
    ∧ entry = batch_reply_entry i species confidence sample.

(** The calls of a batch of [n] samples: one inference per sample. *)
Definition batch_calls (n : nat) : list call :=
  concat (replicate n inference_calls).

(** The reply of [predict_multiple] that carries [entries]. *)
Definition batch_reply (entries : list json) : response :=
  Response 200
    (JObj {[ "total_samples" := JInt (Z.of_nat (length entries));
             "predictions" := JArr entries ]}).

(** The reply of [predict_multiple] to an empty batch. *)
Definition no_samples_reply : response :=
  Response 400 (JObj {[ "error" := JStr "No samples provided" ]}).

(** The reply of [predict_multiple] when exception [e] ends the batch. *)
Definition batch_failed_reply (R : Runtime) (e : exn) : response :=
  Response 500
    (JObj {[ "error" := JStr "Batch prediction failed";
             "message" := JStr (str_exn R e) ]}).

(** The reply of [predict] when exception [e] ends the request. *)
Definition prediction_failed_reply (R : Runtime) (e : exn) : response :=
  Response 500
    (JObj {[ "error" := JStr "Prediction failed";
             "message" := JStr (str_exn R e) ]}).

(** The values that Python takes as false: [None], [False], zero, the
    empty string, the empty list and the empty [dict]. *)
Inductive falsy : json → Prop :=
| falsy_null : falsy JNull
| falsy_false : falsy (JBool false)
| falsy_zero : falsy (JInt 0)
| falsy_float_zero (q : Q) : (q == 0)%Q → falsy (JFloat (FFinite q))
| falsy_empty_str : falsy (JStr "")
| falsy_empty_list : falsy (JArr [])
| falsy_empty_dict : falsy (JObj ∅).

(** [None], a [bool], an [int] or a [float]. *)
Definition scalar (data : json) : Prop :=
  match data with
  | JNull | JBool _ | JInt _ | JFloat _ => True
  | _ => False
  end.

(** A list or a [str]: membership is defined on them, subscripting by a
    string is not. *)
Definition sequence (data : json) : Prop :=
  match data with
  | JArr _ | JStr _ => True
  | _ => False
  end.

(** ** Two batches for the concrete runtime *)

(** A batch of a typical sample and of one far outside the range. *)
Definition mixed_batch : gmap string json :=
  {[ "samples" := JArr [JObj Stump.setosa_sample; JObj Stump.wide_sample] ]}.

(** A batch whose second sample lacks the petal width. *)
Definition broken_batch : gmap string json :=
  {[ "samples" := JArr [JObj Stump.setosa_sample;
                        JObj (delete "petal_width" Stump.wide_sample)] ]}.

(** ** The other handlers *)

(** Health check endpoint *)
Definition health_check : response :=
  jsonify {[ "status" := JStr "healthy";
             "message" := JStr "Iris Classification API is running!";
             "version" := JStr "1.0.0" ]}.

(** The handler of the 404 errors; it does not look at the error. *)
Definition not_found {E} (error : E) : response :=
  jsonify_status {[ "error" := JStr "Endpoint not found" ]} 404.

(** The handler of the 405 errors; it does not look at the error. *)
Definition method_not_allowed {E} (error : E) : response :=
  jsonify_status {[ "error" := JStr "Method not allowed" ]} 405.

(** ** All the outcomes of the handlers *)

(** [Q] holds of the calls and of the result of the step [m]. *)
Definition post {A} (m : M A) (Q : list call → result A → Prop) : Prop :=
  Q m.1 m.2.

(** The reply of [predict] that carries a prediction. *)
Definition prediction_reply (species : string) (confidence p0 p1 p2 : Q)
    (m_sl m_sw m_pl m_pw : pyfloat) : response :=
  Response 200
    (JObj {[ "predicted_species" := JStr species;
             "confidence" := JFloat (FFinite confidence);
             "probabilities" := JObj
               {[ "setosa" := JFloat (FFinite p0);
                  "versicolor" := JFloat (FFinite p1);
                  "virginica" := JFloat (FFinite p2) ]};
             "measurements" := JObj
               {[ "sepal_length" := JFloat m_sl;
                  "sepal_width" := JFloat m_sw;
                  "petal_length" := JFloat m_pl;
                  "petal_width" := JFloat m_pw ]} ]}).

(** [x] is an [int], a [float] or a [bool] whose value is finite and lies
    in the closed interval from [lo] to [hi]. *)
Definition accepted (lo hi : Q) (x : json) : Prop :=
  ∃ v, as_number x = Some (FFinite v) ∧ (lo <= v)%Q ∧ (v <= hi)%Q.

(** The four ways in which [predict] ends on the body [data]: the calls
    made and the reply. *)
Inductive predict_outcome (R : Runtime) (data : json) : list call → response → Prop :=
| predict_missing :
    py_all_in required_features data = Ok false →
    predict_outcome R data [] missing_features_reply
| predict_unknown :
    py_all_in required_features data = Ok true →
    in_typical_range data = Ok false →
    predict_outcome R data [] unknown_reply
| predict_labelled (species : string) (confidence p0 p1 p2 : Q)
    (m_sl m_sw m_pl m_pw : pyfloat) (probs : list Q) :
    py_all_in required_features data = Ok true →
    in_typical_range data = Ok true →
    species ∈ species_names → is_max confidence probs →
    probs !! 0%nat = Some p0 → probs !! 1%nat = Some p1 → probs !! 2%nat = Some p2 →
    predict_outcome R data inference_calls
      (prediction_reply species confidence p0 p1 p2 m_sl m_sw m_pl m_pw)
| predict_failed (t : list call) (e : exn) :
    t `prefix_of` inference_calls →
    py_all_in required_features data ≠ Ok false →
    (t ≠ [] → in_typical_range data = Ok true) →
    predict_outcome R data t (prediction_failed_reply R e).

(** The three ways in which [predict_multiple] ends on the body [data]. *)
Inductive batch_outcome (R : Runtime) (data : json) : list call → response → Prop :=
| batch_no_samples (m : gmap string json) :
    data = JObj m →
    m !! "samples" = None ∨ (∃ v, m !! "samples" = Some v ∧ falsy v) →
    batch_outcome R data [] no_samples_reply
| batch_done (m : gmap string json) (samples entries : list json) :
    data = JObj m → m !! "samples" = Some (JArr samples) → samples ≠ [] →
    Forall (processable R) samples →
    length entries = length samples →
    (∀ (j : nat) (sample : json), samples !! j = Some sample →
       ∃ entry, entries !! j = Some entry ∧ entry_for R j sample entry) →
    batch_outcome R data (batch_calls (length samples)) (batch_reply entries)
| batch_failed (j : nat) (t : list call) (e : exn) :
    t `prefix_of` inference_calls →
    batch_outcome R data (batch_calls j ++ t)%list (batch_failed_reply R e).

(** The replies that the service sends, whatever the request. *)
Inductive served (R : Runtime) : response → Prop :=
| served_health_check : served R health_check
| served_predict (data : json) : served R (predict R data).2
| served_predict_multiple (data : json) : served R (predict_multiple R data).2
| served_not_found {E} (error : E) : served R (not_found error)
| served_method_not_allowed {E} (error : E) : served R (method_not_allowed error).

(** ** Concrete runtimes that fail *)
Module Faulty.

(** The stump with a scaler that was never fitted. *)
Definition unfitted : Runtime := {|
  ndarray := list (list json);
  np_array := λ rows, Ok rows;
  scaler_transform := λ _, Raise (LibraryError "scaler is not fitted");
  model_predict := Stump.classify;
  model_predict_proba := Stump.classify_proba;
  str_exn := str_exn Stump.runtime;
  float_of_str := float_of_str Stump.runtime;
  float_of_big_int := float_of_big_int Stump.runtime
|}.

(** A classifier trained with a fourth class, which it always predicts. *)
Definition four_classes : Runtime := {|
  ndarray := list (list json);
  np_array := λ rows, Ok rows;
  scaler_transform := Stump.transform;
  model_predict := λ _, Ok [3%Z];
  model_predict_proba := λ _, Ok [[0; 0; 1 # 4; 3 # 4]%Q];
  str_exn := str_exn Stump.runtime;
  float_of_str := float_of_str Stump.runtime;
  float_of_big_int := float_of_big_int Stump.runtime
|}.

(** A classifier trained with two classes only. *)
Definition two_classes : Runtime := {|
  ndarray := list (list json);
  np_array := λ rows, Ok rows;
  scaler_transform := Stump.transform;
  model_predict := λ _, Ok [1%Z];
  model_predict_proba := λ _, Ok [[1 # 4; 3 # 4]%Q];
  str_exn := str_exn Stump.runtime;
  float_of_str := float_of_str Stump.runtime;
  float_of_big_int := float_of_big_int Stump.runtime
|}.

End Faulty.

(** ** Lemmas on the Python operations *)

Lemma bind_lift_ok {A B} (a : A) (f : A → M B) : lift (Ok a) ≫= f = f a.
Proof. unfold lift, mbind, M_bind. by destruct (f a). Qed.

Lemma bind_lift_raise {A B} (e : exn) (f : A → M B) :
  lift (Raise e) ≫= f = ([], Raise e).
Proof. reflexivity. Qed.

Lemma bind_invoke_ok {A B} (c : call) (a : A) (f : A → M B) :
  invoke c (Ok a) ≫= f = (c :: (f a).1, (f a).2).
Proof. unfold invoke, mbind, M_bind. by destruct (f a). Qed.

Lemma bind_invoke_raise {A B} (c : call) (e : exn) (f : A → M B) :
  invoke c (Raise e) ≫= f = ([c], Raise e).
Proof. reflexivity. Qed.

Lemma float_le_finite (x y : Q) : float_le (FFinite x) (FFinite y) = true ↔ (x <= y)%Q.
Proof. apply Qle_bool_iff. Qed.

(** On the numbers that a [float] can hold, the bound [float_0_1] of the
    range check cuts where one tenth does. *)
Lemma float_0_1_tenth (q : Q) :
  dyadic53 q → ((1 # 10) <= q ↔ float_0_1 <= q)%Q.
Proof.
  intros (m & k & Hm & Hq). split.
  2:{ intros H. eapply Qle_trans; [|exact H]. unfold float_0_1, Qle. simpl. lia. }
  intros H.
  assert (0 < 2 ^ Z.of_nat k)%Z as Hpos by (apply Z.pow_pos_nonneg; lia).
  destruct Hq as [Hq | Hq]; rewrite Hq in *; clear Hq.
  - set (d := (2 ^ Z.of_nat k)%Z) in *.
    assert (inject_Z m / inject_Z d == m # Z.to_pos d)%Q as Heq.
    { unfold Qdiv, Qinv, inject_Z. simpl. destruct d eqn:Hd; try lia.
      unfold Qmult, Qeq. simpl. lia. }
    rewrite Heq in *. unfold Qle in *. simpl in *.
    rewrite Z2Pos.id in * by lia.
    destruct (Nat.le_gt_cases k 56) as [Hk | Hk].
    + assert (∃ c, 2 ^ 56 = c * d ∧ 0 < c)%Z as (c & Hc & Hcpos).
      { exists (2 ^ (56 - Z.of_nat k))%Z. subst d. split.
        - rewrite <- Z.pow_add_r by lia. f_equal. lia.
        - apply Z.pow_pos_nonneg; lia. }
      assert (7205759403792794 <= m * c)%Z.
      { assert (2 ^ 56 <= m * c * 10)%Z by nia. lia. }
      nia.
    + exfalso.
      assert (2 ^ 57 <= d)%Z by (subst d; apply Z.pow_le_mono_r; lia).
      lia.
  - unfold Qle, float_0_1 in *. simpl in *.
    assert (1 <= m * 2 ^ Z.of_nat k)%Z by lia. lia.
Qed.

(** On a number the chained comparison never raises, and it holds exactly
    when the number lies within the interval. *)
Lemma chained_le_number (lo hi : Q) (x : json) :
  is_number x →
  ∃ b, chained_le lo x hi = Ok b ∧ (b = true ↔ within lo hi x).
Proof.
  intros Hx. unfold chained_le, within.
  destruct x as [| | z | [q| | |] | | |]; try done; simpl.
  - eexists; split; [done|]. rewrite andb_true_iff, !Qle_bool_iff.
    split; [intros [? ?]; eauto|].
    by intros (q & [= <-] & ? & ?).
  - eexists; split; [done|]. rewrite andb_true_iff, !Qle_bool_iff.
    split; [intros [? ?]; eauto|].
    by intros (q' & [= <-] & ? & ?).
  - eexists; split; [done|]. split; [done|]. by intros (q & [=] & _).
  - eexists; split; [done|]. split; [done|]. by intros (q & [=] & _).
  - eexists; split; [done|]. split; [done|]. by intros (q & [=] & _).
Qed.

Lemma within_number (lo hi : Q) (x : json) : within lo hi x → is_number x.
Proof. intros (q & Hq & _). by destruct x as [| | | [| | |] | | |]. Qed.

Lemma in_interval_lookup (m : gmap string json) (key : string) (lo hi : Q) (x : json) :
  m !! key = Some x → in_interval (JObj m) key lo hi = chained_le lo x hi.
Proof. intros H. unfold in_interval. simpl. by rewrite H. Qed.

Lemma complete_lookups (m : gmap string json) :
  complete m ↔
  ∃ a b c d, row_of m = Some [a; b; c; d]
             ∧ is_number a ∧ is_number b ∧ is_number c ∧ is_number d.
Proof.
  unfold complete, required_features, row_of.
  rewrite !Forall_cons, Forall_nil. split.
  - intros ((a & Ha & Na) & (b & Hb & Nb) & (c & Hc & Nc) & (d & Hd & Nd) & _).
    exists a, b, c, d. by rewrite Ha, Hb, Hc, Hd.
  - intros (a & b & c & d & Hrow & Na & Nb & Nc & Nd).
    destruct (m !! "sepal_length") as [a'|] eqn:Ha; [|done].
    destruct (m !! "sepal_width") as [b'|] eqn:Hb; [|done].
    destruct (m !! "petal_length") as [c'|] eqn:Hc; [|done].
    destruct (m !! "petal_width") as [d'|] eqn:Hd; [|done].
    simpl in Hrow. injection Hrow as -> -> -> ->. naive_solver.
Qed.

Lemma typical_lookups (m : gmap string json) (a b c d : json) :
  row_of m = Some [a; b; c; d] →
  typical m ↔
  within 4 8 a ∧ within 2 (9 # 2) b ∧ within 1 7 c ∧ within float_0_1 (5 # 2) d.
Proof.
  unfold row_of, typical, range_profile. intros Hrow.
  destruct (m !! "sepal_length") as [a'|] eqn:Ha; [|done].
  destruct (m !! "sepal_width") as [b'|] eqn:Hb; [|done].
  destruct (m !! "petal_length") as [c'|] eqn:Hc; [|done].
  destruct (m !! "petal_width") as [d'|] eqn:Hd; [|done].
  simpl in Hrow. injection Hrow as -> -> -> ->.
  rewrite !Forall_cons, Forall_nil. naive_solver.
Qed.

Lemma atypical_lookups (m : gmap string json) (a b c d : json) :
  row_of m = Some [a; b; c; d] →
  atypical m ↔
  ¬ within 4 8 a ∨ ¬ within 2 (9 # 2) b ∨ ¬ within 1 7 c
  ∨ ¬ within float_0_1 (5 # 2) d.
Proof.
  unfold row_of, atypical, range_profile. intros Hrow.
  destruct (m !! "sepal_length") as [a'|] eqn:Ha; [|done].
  destruct (m !! "sepal_width") as [b'|] eqn:Hb; [|done].
  destruct (m !! "petal_length") as [c'|] eqn:Hc; [|done].
  destruct (m !! "petal_width") as [d'|] eqn:Hd; [|done].
  simpl in Hrow. injection Hrow as -> -> -> ->.
  rewrite !Exists_cons, Exists_nil. naive_solver.
Qed.

Lemma row_of_lookups (m : gmap string json) (a b c d : json) :
  row_of m = Some [a; b; c; d] ↔
  m !! "sepal_length" = Some a ∧ m !! "sepal_width" = Some b
  ∧ m !! "petal_length" = Some c ∧ m !! "petal_width" = Some d.
Proof.
  unfold row_of. split.
  - intros Hrow.
    destruct (m !! "sepal_length") as [a'|]; [|done].
    destruct (m !! "sepal_width") as [b'|]; [|done].
    destruct (m !! "petal_length") as [c'|]; [|done].
    destruct (m !! "petal_width") as [d'|]; [|done].
    simpl in Hrow. by injection Hrow as -> -> -> ->.
  - by intros (-> & -> & -> & ->).
Qed.

(** The range check of [predict] on numbers: it never raises, and it
    passes exactly when every feature is within its interval. *)
Lemma in_typical_range_numbers (m : gmap string json) (a b c d : json) :
  row_of m = Some [a; b; c; d] →
  is_number a → is_number b → is_number c → is_number d →
  ∃ ok, in_typical_range (JObj m) = Ok ok ∧ (ok = true ↔ typical m).
Proof.
  intros Hrow Na Nb Nc Nd.
  pose proof (typical_lookups m a b c d Hrow) as Htyp.
  apply row_of_lookups in Hrow as (Ha & Hb & Hc & Hd).
  unfold in_typical_range.
  rewrite (in_interval_lookup m _ _ _ a Ha), (in_interval_lookup m _ _ _ b Hb),
    (in_interval_lookup m _ _ _ c Hc), (in_interval_lookup m _ _ _ d Hd).
  destruct (chained_le_number 4 8 a Na) as (b1 & -> & I1).
  destruct (chained_le_number 2 (9 # 2) b Nb) as (b2 & -> & I2).
  destruct (chained_le_number 1 7 c Nc) as (b3 & -> & I3).
  destruct (chained_le_number float_0_1 (5 # 2) d Nd) as (b4 & -> & I4).
  destruct b1, b2, b3, b4; simpl; eexists; (split; [done|]);
    rewrite Htyp; intuition congruence.
Qed.

Lemma py_all_in_row (m : gmap string json) (row : list json) :
  row_of m = Some row → py_all_in required_features (JObj m) = Ok true.
Proof.
  unfold row_of. intros Hrow.
  destruct (m !! "sepal_length") as [a|] eqn:Ha; [|done].
  destruct (m !! "sepal_width") as [b|] eqn:Hb; [|done].
  destruct (m !! "petal_length") as [c|] eqn:Hc; [|done].
  destruct (m !! "petal_width") as [d|] eqn:Hd; [|done].
  simpl. rewrite Ha, Hb, Hc, Hd.
  by rewrite !bool_decide_eq_true_2 by done.
Qed.

(** A feature within an interval of the range profile is echoed by
    [float] without rounding. *)
Lemma py_float_within (R : Runtime) (lo hi : Q) (x : json) :
  (0 <= lo)%Q → (hi <= 8)%Q → within lo hi x →
  ∃ q, real_of x = Some q ∧ py_float R x = Ok (FFinite q).
Proof.
  intros Hlo Hhi (q & Hq & H1 & H2). exists q. split; [done|].
  destruct x as [| | z | [q'| | |] | | |]; try done; simpl in *.
  - injection Hq as <-.
    assert (0 <= inject_Z z)%Q as H0 by (eapply Qle_trans; eassumption).
    assert (inject_Z z <= 8)%Q as H8 by (eapply Qle_trans; eassumption).
    unfold Qle in H0, H8. simpl in H0, H8.
    rewrite (proj2 (Z.leb_le _ _)); [done|]. lia.
  - by injection Hq as <-.
Qed.

(** On a [dict] the presence test never raises: it is the conjunction of
    the key lookups. *)
Lemma py_all_in_dict (features : list string) (m : gmap string json) :
  py_all_in features (JObj m)
  = Ok (forallb (λ feature, bool_decide (is_Some (m !! feature))) features).
Proof.
  induction features as [|feature rest IH]; [done|].
  cbn [py_all_in py_contains forallb].
  by destruct (bool_decide (is_Some (m !! feature))).
Qed.

Lemma py_all_in_missing (m : gmap string json) (key : string) :
  key ∈ required_features → m !! key = None →
  py_all_in required_features (JObj m) = Ok false.
Proof.
  intros Hkey Hnone. rewrite py_all_in_dict. f_equal.
  apply not_true_is_false. rewrite forallb_forall. intros Hall.
  specialize (Hall key). rewrite <- list_elem_of_In in Hall.
  specialize (Hall Hkey). apply bool_decide_eq_true_1 in Hall.
  rewrite Hnone in Hall. by destruct Hall.
Qed.

(** ** The single-prediction handler *)

(** C3: a body that is an object lacking at least one of the four feature
    keys gets status 400 and the full list of the four required names,
    whichever keys are missing; no collaborator is invoked. *)
Theorem predict_missing_features (R : Runtime) (m : gmap string json) (key : string) :
  key ∈ required_features → m !! key = None →
  predict R (JObj m) = ([], missing_features_reply).
Proof.
  intros Hkey Hnone. unfold predict, predict_body.
  rewrite (py_all_in_missing m key Hkey Hnone), bind_lift_ok.
  reflexivity.
Qed.

Lemma predict_missing_features_witness :
  predict Stump.runtime (JObj (delete "petal_width" Stump.setosa_sample))
  = ([], missing_features_reply)
  ∧ field missing_features_reply "required"
    = Some (JArr (JStr <$> required_features)).
Proof.
  split; [|reflexivity].
  apply (predict_missing_features Stump.runtime _ "petal_width").
  - unfold required_features. set_solver.
  - vm_compute. reflexivity.
Defined.

Lemma py_getitem_lookup (m : gmap string json) (key : string) (x : json) :
  m !! key = Some x → py_getitem (JObj m) key = Ok x.
Proof. intros H. unfold py_getitem. by rewrite H. Qed.

Lemma atypical_not_typical (m : gmap string json) (row : list json) :
  row_of m = Some row → atypical m → ¬ typical m.
Proof.
  intros Hrow Hout Hin.
  assert (∃ a b c d, row = [a; b; c; d]) as (a & b & c & d & ->).
  { unfold row_of in Hrow.
    destruct (m !! "sepal_length"); [|done]. destruct (m !! "sepal_width"); [|done].
    destruct (m !! "petal_length"); [|done]. destruct (m !! "petal_width"); [|done].
    simpl in Hrow. injection Hrow as <-. eauto. }
  apply (atypical_lookups m a b c d Hrow) in Hout.
  apply (typical_lookups m a b c d Hrow) in Hin.
  tauto.
Qed.

(** C2: for a complete feature vector with some value outside its
    interval, [predict] invokes neither the scaler nor the classifier and
    answers 200 with the species "unknown"; the body has no probabilities
    and no confidence. *)
Theorem predict_out_of_range (R : Runtime) (m : gmap string json) :
  complete m → atypical m → builds R m →
  predict R (JObj m) = ([], unknown_reply)
  ∧ status unknown_reply = 200%Z
  ∧ field unknown_reply "predicted_species" = Some (JStr "unknown")
  ∧ field unknown_reply "probabilities" = None
  ∧ field unknown_reply "confidence" = None.
Proof.
  intros Hcomplete Hout (row & features & Hrow & Hnp).
  split; [|by vm_compute].
  apply complete_lookups in Hcomplete as (a & b & c & d & Hrow' & Na & Nb & Nc & Nd).
  rewrite Hrow' in Hrow. injection Hrow as <-.
  destruct (in_typical_range_numbers m a b c d Hrow' Na Nb Nc Nd) as (ok & Hok & Hiff).
  assert (ok = false) as ->.
  { apply not_true_is_false. intros Htrue.
    by apply (atypical_not_typical m _ Hrow' Hout), Hiff. }
  pose proof (py_all_in_row m _ Hrow') as Hall.
  apply row_of_lookups in Hrow' as (Ha & Hb & Hc & Hd).
  unfold predict, predict_body.
  rewrite Hall, bind_lift_ok. cbn [negb].
  rewrite (py_getitem_lookup m _ a Ha), bind_lift_ok.
  rewrite (py_getitem_lookup m _ b Hb), bind_lift_ok.
  rewrite (py_getitem_lookup m _ c Hc), bind_lift_ok.
  rewrite (py_getitem_lookup m _ d Hd), bind_lift_ok.
  rewrite Hnp, bind_lift_ok, Hok, bind_lift_ok.
  reflexivity.
Qed.

Lemma predict_out_of_range_witness :
  predict Stump.runtime (JObj Stump.wide_sample) = ([], unknown_reply)
  ∧ field unknown_reply "probabilities" = None.
Proof.
  assert (row_of Stump.wide_sample = Some Stump.wide_row) as Hrow
    by (vm_compute; reflexivity).
  destruct (predict_out_of_range Stump.runtime Stump.wide_sample)
    as (Hreply & _ & _ & Hnone & _).
  - apply complete_lookups. eexists _, _, _, _. split; [exact Hrow|done].
  - apply (atypical_lookups _ _ _ _ _ Hrow). right; right; right.
    intros (q & [= <-] & _ & Hle). by vm_compute in Hle.
  - eexists _, _. split; [exact Hrow|reflexivity].
  - by split.
Defined.

(** *** Requests within the typical range *)

Lemma fold_max_spec (rest : list Q) (x : Q) :
  let r := fold_left (λ maxval item, if Qle_bool item maxval then maxval else item)
                     rest x in
  (r = x ∨ r ∈ rest) ∧ (x <= r)%Q ∧ Forall (λ y, (y <= r)%Q) rest.
Proof.
  revert x. induction rest as [|y rest IH]; intros x; simpl.
  - split; [by left|]. split; [apply Qle_refl|constructor].
  - destruct (Qle_bool y x) eqn:Hyx.
    + destruct (IH x) as (Hin & Hle & Hall). apply Qle_bool_iff in Hyx.
      split; [destruct Hin; [by left|right; by right]|].
      split; [done|]. constructor; [by eapply Qle_trans|done].
    + destruct (IH y) as (Hin & Hle & Hall).
      assert (x <= y)%Q as Hxy.
      { apply Qlt_le_weak, Qnot_le_lt. intros H%Qle_bool_iff. congruence. }
      split; [right; destruct Hin as [-> | Hin]; [by left|by right]|].
      split; [by eapply Qle_trans|]. by constructor.
Qed.

(** [max] of a non-empty sequence is its greatest element. *)
Lemma py_max_spec (x : Q) (rest : list Q) :
  ∃ top, py_max (x :: rest) = Ok top ∧ is_max top (x :: rest).
Proof.
  destruct (fold_max_spec rest x) as (Hin & Hle & Hall).
  eexists. split; [reflexivity|]. split.
  - destruct Hin as [-> | Hin]; [by left|by right].
  - by constructor.
Qed.

Lemma py_index_head {A} (x : A) (l : list A) : py_index (x :: l) 0 = Ok x.
Proof. reflexivity. Qed.

Lemma py_index_tail {A} (x : A) (l : list A) (i : nat) :
  py_index (x :: l) (S i) = py_index l i.
Proof. reflexivity. Qed.

Lemma species_of_class (k : Z) :
  (0 ≤ k ≤ 2)%Z → ∃ species, species_of k = Ok species ∧ species ∈ species_names.
Proof.
  intros Hk. assert (k = 0 ∨ k = 1 ∨ k = 2)%Z as [-> | [-> | ->]] by lia;
    eexists; (split; [reflexivity|]); unfold species_names; set_solver.
Qed.

(** C1: for a feature vector within the range profile on which the scaler
    and the classifier answer with a class index among 0, 1, 2 and three
    class probabilities that sum to one within a millionth, [predict]
    makes one inference and answers 200; the label of the reply is one of
    the three species, its confidence is the greatest of the three
    probability values that it carries, and these sum to one within a
    millionth. *)
Theorem predict_typical (R : Runtime) (m : gmap string json) (row : list json)
    (k : Z) (p0 p1 p2 : Q) :
  typical m → row_of m = Some row → infers R row k [p0; p1; p2] →
  (0 ≤ k ≤ 2)%Z → sums_to_one [p0; p1; p2] →
  ∃ reply species confidence probabilities,
    predict R (JObj m) = (inference_calls, reply)
    ∧ status reply = 200%Z
    ∧ label_of reply = Some species ∧ species ∈ species_names
    ∧ confidence_of reply = Some confidence
    ∧ probabilities_of reply = Some probabilities
    ∧ is_max confidence probabilities
    ∧ sums_to_one probabilities.
Proof.
  intros Htyp Hrow (features & features_scaled & ks & rest & Hnp & Hsc & Hpred & Hproba)
    Hk Hsum.
  assert (∃ a b c d, row = [a; b; c; d]) as (a & b & c & d & ->).
  { unfold row_of in Hrow.
    destruct (m !! "sepal_length"); [|done]. destruct (m !! "sepal_width"); [|done].
    destruct (m !! "petal_length"); [|done]. destruct (m !! "petal_width"); [|done].
    simpl in Hrow. injection Hrow as <-. eauto. }
  pose proof (proj1 (typical_lookups m a b c d Hrow) Htyp) as (Wa & Wb & Wc & Wd).
  destruct (in_typical_range_numbers m a b c d Hrow) as (ok & Hok & Hiff);
    eauto using within_number.
  assert (ok = true) as -> by by apply Hiff.
  destruct (py_float_within R 4 8 a ltac:(by vm_compute) ltac:(by vm_compute) Wa) as (qa & _ & Fa).
  destruct (py_float_within R 2 (9 # 2) b ltac:(by vm_compute) ltac:(by vm_compute) Wb) as (qb & _ & Fb).
  destruct (py_float_within R 1 7 c ltac:(by vm_compute) ltac:(by vm_compute) Wc) as (qc & _ & Fc).
  destruct (py_float_within R float_0_1 (5 # 2) d ltac:(by vm_compute) ltac:(by vm_compute) Wd) as (qd & _ & Fd).
  destruct (species_of_class k Hk) as (species & Hspecies & Hin).
  destruct (py_max_spec p0 [p1; p2]) as (top & Htop & Hmax).
  pose proof (py_all_in_row m _ Hrow) as Hall.
  apply row_of_lookups in Hrow as (Ha & Hb & Hc & Hd).
  eexists _, species, top, [p0; p1; p2].
  split.
  - unfold predict, predict_body.
    rewrite Hall, bind_lift_ok. cbn [negb].
    rewrite !(py_getitem_lookup m _ a Ha), !(py_getitem_lookup m _ b Hb),
      !(py_getitem_lookup m _ c Hc), !(py_getitem_lookup m _ d Hd).
    rewrite !bind_lift_ok.
    rewrite Hnp, bind_lift_ok, Hok, bind_lift_ok. cbn [negb].
    rewrite Hsc, bind_invoke_ok, Hpred, bind_invoke_ok.
    rewrite py_index_head, bind_lift_ok, Hproba, bind_invoke_ok.
    rewrite py_index_head, bind_lift_ok.
    rewrite Hspecies, bind_lift_ok, Htop, bind_lift_ok.
    rewrite !py_index_tail, !py_index_head, !bind_lift_ok.
    cbn [mbind result_bind]. rewrite Fa, Fb, Fc, Fd. rewrite !bind_lift_ok.
    reflexivity.
  - repeat split; try done; try apply Hmax.
Qed.

Lemma predict_typical_witness :
  ∃ reply,
    predict Stump.runtime (JObj Stump.setosa_sample) = (inference_calls, reply)
    ∧ label_of reply = Some "setosa"
    ∧ confidence_of reply = Some 1%Q
    ∧ probabilities_of reply = Some [1; 0; 0]%Q.
Proof.
  assert (row_of Stump.setosa_sample = Some Stump.setosa_row) as Hrow
    by (vm_compute; reflexivity).
  destruct (predict_typical Stump.runtime Stump.setosa_sample Stump.setosa_row 0 1 0 0)
    as (reply & species & confidence & probabilities & Hreply & _);
    [ | exact Hrow | | lia | by vm_compute | ].
  - apply (typical_lookups _ _ _ _ _ Hrow).
    repeat split; (eexists; split; [reflexivity|]; by vm_compute).
  - by eexists _, _, [], [].
  - exists reply. split; [exact Hreply|].
    vm_compute in Hreply. injection Hreply as <-. by vm_compute.
Defined.

(** ** The batch handler *)

Lemma row_of_four (m : gmap string json) (row : list json) :
  row_of m = Some row →
  ∃ a b c d, row = [a; b; c; d]
    ∧ m !! "sepal_length" = Some a ∧ m !! "sepal_width" = Some b
    ∧ m !! "petal_length" = Some c ∧ m !! "petal_width" = Some d.
Proof.
  intros Hrow.
  assert (∃ a b c d, row = [a; b; c; d]) as (a & b & c & d & ->).
  { unfold row_of in Hrow.
    destruct (m !! "sepal_length"); [|done]. destruct (m !! "sepal_width"); [|done].
    destruct (m !! "petal_length"); [|done]. destruct (m !! "petal_width"); [|done].
    simpl in Hrow. injection Hrow as <-. eauto. }
  exists a, b, c, d. split; [done|]. by apply row_of_lookups.
Qed.

(** One turn of the loop on a processable sample. *)
Lemma batch_entry_processable (R : Runtime) (i : nat) (sample : json) :
  processable R sample →
  ∃ entry, batch_entry R i sample = (inference_calls, Ok entry)
           ∧ entry_for R i sample entry.
Proof.
  intros (m & row & k & probs & -> & Hrow & Hinf & Hk & Hprobs).
  destruct probs as [|p probs]; [done|].
  destruct (species_of_class k Hk) as (species & Hspecies & Hin).
  destruct (py_max_spec p probs) as (top & Htop & Hmax).
  exists (batch_reply_entry i species top (JObj m)). split.
  - destruct Hinf as (features & features_scaled & ks & rest & Hnp & Hsc & Hpred & Hproba).
    destruct (row_of_four m row Hrow) as (a & b & c & d & -> & Ha & Hb & Hc & Hd).
    unfold batch_entry.
    rewrite (py_getitem_lookup m _ a Ha), (py_getitem_lookup m _ b Hb),
      (py_getitem_lookup m _ c Hc), (py_getitem_lookup m _ d Hd).
    rewrite !bind_lift_ok.
    rewrite Hnp, bind_lift_ok, Hsc, bind_invoke_ok, Hpred, bind_invoke_ok.
    rewrite py_index_head, bind_lift_ok, Hproba, bind_invoke_ok.
    rewrite py_index_head, bind_lift_ok.
    rewrite Hspecies, bind_lift_ok, Htop, bind_lift_ok.
    reflexivity.
  - by exists m, row, k, (p :: probs), species, top.
Qed.

Lemma species_of_ok (k : Z) (species : string) :
  species_of k = Ok species → (0 ≤ k ≤ 2)%Z.
Proof.
  unfold species_of, SPECIES_MAP. intros H.
  destruct (decide (k = 0%Z)) as [-> | H0]; [lia|].
  destruct (decide (k = 1%Z)) as [-> | H1]; [lia|].
  destruct (decide (k = 2%Z)) as [-> | H2]; [lia|].
  rewrite lookup_insert_ne, lookup_insert_ne, lookup_singleton_ne in H; done.
Qed.

(** Conversely, a turn of the loop that appends an entry was on a
    processable sample: [processable] says no more than that the turn
    succeeds. *)
Lemma batch_entry_ok (R : Runtime) (i : nat) (sample : json)
    (t : list call) (entry : json) :
  batch_entry R i sample = (t, Ok entry) → processable R sample.
Proof.
  unfold batch_entry. intros H.
  destruct sample as [| | | | | | m]; try done.
  unfold py_getitem in H.
  destruct (m !! "sepal_length") as [a|] eqn:Ha; [|done].
  destruct (m !! "sepal_width") as [b|] eqn:Hb; [|done].
  destruct (m !! "petal_length") as [c|] eqn:Hc; [|done].
  destruct (m !! "petal_width") as [d|] eqn:Hd; [|done].
  rewrite !bind_lift_ok in H.
  destruct (np_array R [[a; b; c; d]]) as [features|] eqn:Hnp; [|done].
  rewrite bind_lift_ok in H.
  destruct (scaler_transform R features) as [features_scaled|] eqn:Hsc; [|done].
  rewrite bind_invoke_ok in H.
  destruct (model_predict R features_scaled) as [[|k ks]|] eqn:Hpred; [done| |done].
  rewrite bind_invoke_ok, py_index_head, bind_lift_ok in H.
  destruct (model_predict_proba R features_scaled) as [[|probs rest]|] eqn:Hproba;
    [done| |done].
  rewrite bind_invoke_ok, py_index_head, bind_lift_ok in H.
  destruct (species_of k) as [species|] eqn:Hspecies; [|done].
  rewrite bind_lift_ok in H.
  destruct probs as [|p probs]; [done|].
  exists m, [a; b; c; d], k, (p :: probs).
  split; [done|]. split; [by apply row_of_lookups|].
  split; [by exists features, features_scaled, ks, rest|].
  split; [by eapply species_of_ok|done].
Qed.

Lemma batch_calls_S (n : nat) :
  batch_calls (S n) = (inference_calls ++ batch_calls n)%list.
Proof. reflexivity. Qed.

(** The loop on processable samples: one inference and one entry per
    sample, in order, each entry numbered by its position. *)
Lemma batch_loop_processable (R : Runtime) (samples : list json) :
  Forall (processable R) samples →
  ∀ (i : nat) (results : list json),
  ∃ entries,
    batch_loop R i samples results
    = (batch_calls (length samples), Ok (results ++ entries)%list)
    ∧ length entries = length samples
    ∧ ∀ (j : nat) (sample : json), samples !! j = Some sample →
        ∃ entry, entries !! j = Some entry ∧ entry_for R (i + j) sample entry.
Proof.
  induction 1 as [|sample rest Hsample Hrest IH]; intros i results.
  - exists []. rewrite app_nil_r. by repeat split.
  - destruct (batch_entry_processable R i sample Hsample) as (entry & Hentry & Hfor).
    destruct (IH (S i) (results ++ [entry])%list) as (entries & Hloop & Hlen & Hall).
    exists (entry :: entries). split; [|split].
    + cbn [batch_loop]. rewrite Hentry.
      cbn [mbind M_bind]. rewrite Hloop.
      rewrite <- app_assoc. reflexivity.
    + simpl. by rewrite Hlen.
    + intros [|j] s Hs; simpl in Hs.
      * injection Hs as <-. exists entry. by rewrite Nat.add_0_r.
      * destruct (Hall j s Hs) as (e & He & Hfe). exists e.
        split; [done|]. by rewrite Nat.add_succ_r.
Qed.

Lemma py_truthy_nonempty (samples : list json) :
  samples ≠ [] → py_truthy (JArr samples) = true.
Proof. by destruct samples. Qed.

(** A batch of processable samples: the whole reply. *)
Lemma predict_multiple_processable (R : Runtime) (data : gmap string json)
    (samples : list json) :
  data !! "samples" = Some (JArr samples) → samples ≠ [] →
  Forall (processable R) samples →
  ∃ entries,
    predict_multiple R (JObj data)
    = (batch_calls (length samples), batch_reply entries)
    ∧ length entries = length samples
    ∧ ∀ (j : nat) (sample : json), samples !! j = Some sample →
        ∃ entry, entries !! j = Some entry ∧ entry_for R j sample entry.
Proof.
  intros Hdata Hne Hall.
  destruct (batch_loop_processable R samples Hall 0 []) as (entries & Hloop & Hlen & Hent).
  exists entries. split; [|done].
  unfold predict_multiple, predict_multiple_body, py_get.
  rewrite Hdata. cbn [default from_option id]. rewrite bind_lift_ok.
  rewrite (py_truthy_nonempty samples Hne). cbn [negb py_iter].
  rewrite bind_lift_ok, Hloop. cbn [mbind M_bind app mret M_ret try_except].
  by rewrite app_nil_r.
Qed.

Lemma batch_reply_entry_fields (i : nat) (species : string) (confidence : Q)
    (sample : json) :
  ∃ e, batch_reply_entry i species confidence sample = JObj e
       ∧ e !! "sample_id" = Some (JInt (Z.of_nat i))
       ∧ e !! "predicted_species" = Some (JStr species)
       ∧ e !! "confidence" = Some (JFloat (FFinite confidence))
       ∧ e !! "measurements" = Some sample
       ∧ e !! "probabilities" = None
       ∧ size e = 4%nat.
Proof. eexists. split; [reflexivity|]. by repeat split. Qed.

Lemma unknown_not_species : "unknown" ∉ species_names.
Proof. unfold species_names. set_solver. Qed.

(** C4: [predict_multiple] makes no range check.  On a batch of samples
    that have the four keys and on which the scaler and the classifier
    answer, whatever the values, it invokes the scaler and the classifier
    once per sample and every entry carries one of the three species, not
    "unknown". *)
Theorem predict_multiple_no_range_check (R : Runtime) (data : gmap string json)
    (samples : list json) :
  data !! "samples" = Some (JArr samples) → samples ≠ [] →
  Forall (processable R) samples →
  ∃ entries,
    predict_multiple R (JObj data)
    = (batch_calls (length samples), batch_reply entries)
    ∧ ∀ (j : nat) (sample : json), samples !! j = Some sample →
        ∃ e species,
          entries !! j = Some (JObj e)
          ∧ e !! "predicted_species" = Some (JStr species)
          ∧ species ∈ species_names ∧ species ≠ "unknown".
Proof.
  intros Hdata Hne Hall.
  destruct (predict_multiple_processable R data samples Hdata Hne Hall)
    as (entries & Hreply & _ & Hent).
  exists entries. split; [done|]. intros j sample Hj.
  destruct (Hent j sample Hj)
    as (entry & He & m & row & k & probs & species & conf & _ & _ & _ & _ & Hin & _ & ->).
  destruct (batch_reply_entry_fields j species conf sample)
    as (e & Heq & _ & Hsp & _).
  rewrite Heq in He. exists e, species. repeat split; try done.
  intros ->. by apply unknown_not_species.
Qed.

(** C7: on a non-empty batch of N samples that all process, the reply has
    [total_samples] equal to N and N entries in the order of the input;
    the entry at position j has [sample_id] j and echoes the sample as it
    was received. *)
Theorem predict_multiple_positions (R : Runtime) (data : gmap string json)
    (samples : list json) :
  data !! "samples" = Some (JArr samples) → samples ≠ [] →
  Forall (processable R) samples →
  ∃ calls reply entries,
    predict_multiple R (JObj data) = (calls, reply)
    ∧ status reply = 200%Z
    ∧ field reply "total_samples" = Some (JInt (Z.of_nat (length samples)))
    ∧ field reply "predictions" = Some (JArr entries)
    ∧ length entries = length samples
    ∧ ∀ (j : nat) (sample : json), samples !! j = Some sample →
        ∃ e, entries !! j = Some (JObj e)
             ∧ e !! "sample_id" = Some (JInt (Z.of_nat j))
             ∧ e !! "measurements" = Some sample.
Proof.
  intros Hdata Hne Hall.
  destruct (predict_multiple_processable R data samples Hdata Hne Hall)
    as (entries & Hreply & Hlen & Hent).
  eexists _, _, entries. split; [exact Hreply|].
  split; [done|]. split; [by rewrite <- Hlen|]. split; [done|]. split; [done|].
  intros j sample Hj.
  destruct (Hent j sample Hj)
    as (entry & He & m & row & k & probs & species & conf & _ & _ & _ & _ & _ & _ & ->).
  destruct (batch_reply_entry_fields j species conf sample)
    as (e & Heq & Hid & _ & _ & Hecho & _).
  rewrite Heq in He. by exists e.
Qed.

(** C6, as amended: every entry of a successful batch reply has exactly
    four fields, the sample's position, its label (one of the three
    species), its confidence (the greatest of the classifier's class
    probabilities for the sample) and the sample as received; it carries
    no probability distribution. *)
Theorem predict_multiple_entry_shape (R : Runtime) (data : gmap string json)
    (samples : list json) :
  data !! "samples" = Some (JArr samples) → samples ≠ [] →
  Forall (processable R) samples →
  ∃ calls entries,
    predict_multiple R (JObj data) = (calls, batch_reply entries)
    ∧ ∀ (j : nat) (sample : json), samples !! j = Some sample →
        ∃ e m row k probs species confidence,
          entries !! j = Some (JObj e)
          ∧ e = {[ "sample_id" := JInt (Z.of_nat j);
                   "predicted_species" := JStr species;
                   "confidence" := JFloat (FFinite confidence);
                   "measurements" := sample ]}
          ∧ size e = 4%nat
          ∧ e !! "probabilities" = None
          ∧ species ∈ species_names
          ∧ sample = JObj m ∧ row_of m = Some row ∧ infers R row k probs
          ∧ is_max confidence probs.
Proof.
  intros Hdata Hne Hall.
  destruct (predict_multiple_processable R data samples Hdata Hne Hall)
    as (entries & Hreply & _ & Hent).
  eexists _, entries. split; [exact Hreply|]. intros j sample Hj.
  destruct (Hent j sample Hj)
    as (entry & He & m & row & k & probs & species & conf
        & Hs & Hrow & Hinf & _ & Hin & Hmax & ->).
  destruct (batch_reply_entry_fields j species conf sample)
    as (e & Heq & _ & _ & _ & _ & Hnone & Hsize).
  exists e, m, row, k, probs, species, conf.
  rewrite Heq in He. unfold batch_reply_entry in Heq. injection Heq as Heq.
  split; [exact He|]. split; [by symmetry|]. split; [exact Hsize|].
  split; [exact Hnone|]. split; [exact Hin|]. split; [exact Hs|].
  split; [exact Hrow|]. split; [exact Hinf|exact Hmax].
Qed.

(** The loop stops at a sample whose turn raises. *)
Lemma batch_loop_raises (R : Runtime) (samples : list json) :
  ∀ (i : nat) (results : list json) (j : nat) (sample : json)
    (t : list call) (e : exn),
  samples !! j = Some sample → batch_entry R (i + j) sample = (t, Raise e) →
  ∃ t' e', batch_loop R i samples results = (t', Raise e').
Proof.
  induction samples as [|first rest IH]; intros i results j sample t e Hj Hraise;
    [done|].
  cbn [batch_loop].
  destruct (batch_entry R i first) as [t0 [entry|e0]] eqn:Hfirst.
  - destruct j as [|j]; simpl in Hj.
    + injection Hj as ->. rewrite Nat.add_0_r in Hraise. congruence.
    + rewrite Nat.add_succ_r in Hraise.
      destruct (IH (S i) (results ++ [entry])%list j sample t e Hj Hraise)
        as (t' & e' & Hloop).
      cbn [mbind M_bind]. rewrite Hloop. eauto.
  - cbn [mbind M_bind]. eauto.
Qed.

(** When the samples before the failing one all process, the exception of
    the batch is the one of the failing sample, raised after their
    inferences. *)
Lemma batch_loop_first_raise (R : Runtime) (before : list json) :
  Forall (processable R) before →
  ∀ (i : nat) (results : list json) (sample : json) (after : list json)
    (t : list call) (e : exn),
  batch_entry R (i + length before) sample = (t, Raise e) →
  batch_loop R i (before ++ sample :: after) results
  = ((batch_calls (length before) ++ t)%list, Raise e).
Proof.
  induction 1 as [|first rest Hfirst Hrest IH]; intros i results sample after t e Hraise.
  - simpl in *. rewrite Nat.add_0_r in Hraise. by rewrite Hraise.
  - destruct (batch_entry_processable R i first Hfirst) as (entry & Hentry & _).
    cbn [app batch_loop]. rewrite Hentry. cbn [mbind M_bind].
    simpl length in Hraise. rewrite Nat.add_succ_r in Hraise.
    rewrite (IH (S i) _ sample after t e Hraise).
    cbn [length]. by rewrite batch_calls_S, <- app_assoc.
Qed.

(** C5: when the turn of some sample of the batch raises, the reply of
    [predict_multiple] is a single 500 "Batch prediction failed" error; it
    has no [predictions] and no [total_samples], so no entry of any
    sample, processed or not, is returned. *)
Theorem predict_multiple_aborts (R : Runtime) (data : gmap string json)
    (samples : list json) (j : nat) (sample : json) (t : list call) (e : exn) :
  data !! "samples" = Some (JArr samples) →
  samples !! j = Some sample → batch_entry R j sample = (t, Raise e) →
  ∃ calls e',
    predict_multiple R (JObj data) = (calls, batch_failed_reply R e')
    ∧ status (batch_failed_reply R e') = 500%Z
    ∧ field (batch_failed_reply R e') "error" = Some (JStr "Batch prediction failed")
    ∧ field (batch_failed_reply R e') "predictions" = None
    ∧ field (batch_failed_reply R e') "total_samples" = None.
Proof.
  intros Hdata Hj Hraise.
  destruct (batch_loop_raises R samples 0 [] j sample t e Hj Hraise) as (t' & e' & Hloop).
  exists t', e'. split; [|by repeat split].
  unfold predict_multiple, predict_multiple_body, py_get.
  rewrite Hdata. cbn [default from_option id]. rewrite bind_lift_ok.
  rewrite py_truthy_nonempty by (by destruct samples).
  cbn [negb py_iter]. rewrite bind_lift_ok, Hloop. reflexivity.
Qed.

(** A sample that lacks a feature key raises KeyError before any
    collaborator is invoked. *)
Lemma batch_entry_missing_key (R : Runtime) (i : nat) (m : gmap string json) :
  row_of m = None → ∃ key, batch_entry R i (JObj m) = ([], Raise (KeyError (JStr key))).
Proof.
  unfold row_of, batch_entry, py_getitem. intros Hrow.
  destruct (m !! "sepal_length") as [a|]; [|by eexists].
  destruct (m !! "sepal_width") as [b|]; [|by eexists].
  destruct (m !! "petal_length") as [c|]; [|by eexists].
  destruct (m !! "petal_width") as [d|]; [|by eexists].
  done.
Qed.

Lemma falsy_truthy (x : json) : falsy x ↔ py_truthy x = false.
Proof.
  split.
  - destruct 1; try done. simpl. by rewrite (proj2 (Qeq_bool_iff q 0)).
  - destruct x as [| [|] | z | [q| | |] | s | l | m]; simpl; intros H;
      try done; try (by constructor); apply negb_false_iff in H.
    + apply Z.eqb_eq in H as ->. constructor.
    + constructor. by apply Qeq_bool_iff.
    + apply bool_decide_eq_true_1 in H as ->. constructor.
    + destruct l; [constructor|done].
    + apply Nat.eqb_eq, map_size_empty_iff in H as ->. constructor.
Qed.

(** The samples that [predict_multiple] reads from the body. *)
Lemma predict_multiple_falsy (R : Runtime) (data : gmap string json) (samples : json) :
  py_get (JObj data) "samples" (JArr []) = Ok samples → falsy samples →
  predict_multiple R (JObj data) = ([], no_samples_reply).
Proof.
  intros Hget Hfalsy%falsy_truthy.
  unfold predict_multiple, predict_multiple_body.
  by rewrite Hget, bind_lift_ok, Hfalsy.
Qed.

(** C8: a body whose [samples] is the empty list gets status 400 with the
    body [{"error": "No samples provided"}], and neither the scaler nor
    the classifier is invoked. *)
Theorem predict_multiple_empty (R : Runtime) (data : gmap string json) :
  data !! "samples" = Some (JArr []) →
  predict_multiple R (JObj data) = ([], no_samples_reply)
  ∧ no_samples_reply
    = Response 400 (JObj {[ "error" := JStr "No samples provided" ]}).
Proof.
  intros Hdata. split; [|done].
  apply (predict_multiple_falsy R data (JArr [])); [|constructor].
  unfold py_get. by rewrite Hdata.
Qed.

Lemma predict_multiple_empty_witness :
  predict_multiple Stump.runtime (JObj {[ "samples" := JArr [] ]})
  = ([], no_samples_reply).
Proof.
  apply (predict_multiple_empty Stump.runtime {[ "samples" := JArr [] ]}).
  reflexivity.
Defined.

(** C9: a body that is an object without the key [samples], or with a
    false value under it (null, false, zero, the empty string, list or
    object), is answered like an empty batch: status 400 with
    [{"error": "No samples provided"}]. *)
Theorem predict_multiple_no_samples (R : Runtime) (data : gmap string json) :
  data !! "samples" = None ∨ (∃ v, data !! "samples" = Some v ∧ falsy v) →
  predict_multiple R (JObj data) = ([], no_samples_reply)
  ∧ predict_multiple R (JObj data)
    = predict_multiple R (JObj {[ "samples" := JArr [] ]}).
Proof.
  intros Hdata.
  assert (predict_multiple R (JObj data) = ([], no_samples_reply)) as Hreply.
  { destruct Hdata as [Hnone | (v & Hsome & Hfalsy)].
    - apply (predict_multiple_falsy R data (JArr [])); [|constructor].
      unfold py_get. by rewrite Hnone.
    - apply (predict_multiple_falsy R data v); [|done].
      unfold py_get. by rewrite Hsome. }
  split; [done|]. rewrite Hreply. symmetry.
  by apply (predict_multiple_falsy R _ (JArr [])); [|constructor].
Qed.

Lemma predict_multiple_no_samples_witness :
  predict_multiple Stump.runtime (JObj ∅) = ([], no_samples_reply)
  ∧ predict_multiple Stump.runtime (JObj {[ "samples" := JNull ]})
    = ([], no_samples_reply).
Proof.
  split.
  - apply (predict_multiple_no_samples Stump.runtime ∅). by left.
  - apply (predict_multiple_no_samples Stump.runtime {[ "samples" := JNull ]}).
    right. exists JNull. split; [reflexivity|constructor].
Defined.

(** *** Bodies that are not objects *)

(** C10, as stated, fails on a body that is a JSON array: the presence
    test does not raise on the empty list, and the reply is the 400 of
    missing features, not a 500. *)
Lemma predict_array_body_400 :
  predict Stump.runtime (JArr []) = ([], missing_features_reply)
  ∧ status (predict Stump.runtime (JArr [])).2 ≠ 500%Z.
Proof. split; [reflexivity|]. by vm_compute. Qed.

(** C10, as amended: on a body that is null, a boolean or a number the
    presence test raises and the reply is the 500 "Prediction failed".  On
    a body that is an array or a string the presence test does not raise:
    when a name is absent from it the reply is the 400 of missing
    features, and when all four names are in it the subscript raises and
    the reply is the 500 "Prediction failed". *)
Theorem predict_non_mapping (R : Runtime) (data : json) :
  (scalar data →
     py_contains data "sepal_length" = Raise (TypeError "in")
     ∧ predict R data = ([], prediction_failed_reply R (TypeError "in")))
  ∧ (sequence data →
     ∃ present, py_all_in required_features data = Ok present
       ∧ predict R data
         = ([], if present then prediction_failed_reply R (TypeError "subscript")
                else missing_features_reply)).
Proof.
  split.
  - intros Hscalar. by destruct data.
  - intros Hseq.
    destruct data as [| | | | s | l |]; try done.
    + destruct (py_all_in required_features (JStr s)) as [present|e] eqn:Hall.
      * exists present. split; [done|].
        unfold predict, predict_body. rewrite Hall, bind_lift_ok.
        by destruct present.
      * exfalso. revert Hall. unfold required_features. cbn [py_all_in py_contains].
        by repeat case_match.
    + destruct (py_all_in required_features (JArr l)) as [present|e] eqn:Hall.
      * exists present. split; [done|].
        unfold predict, predict_body. rewrite Hall, bind_lift_ok.
        by destruct present.
      * exfalso. revert Hall. unfold required_features. cbn [py_all_in py_contains].
        by repeat case_match.
Qed.

Lemma predict_non_mapping_witness :
  predict Stump.runtime JNull
  = ([], prediction_failed_reply Stump.runtime (TypeError "in"))
  ∧ predict Stump.runtime (JArr (JStr <$> required_features))
    = ([], prediction_failed_reply Stump.runtime (TypeError "subscript")).
Proof.
  split.
  - by apply (predict_non_mapping Stump.runtime JNull).
  - destruct (predict_non_mapping Stump.runtime (JArr (JStr <$> required_features)))
      as [_ Hseq].
    destruct (Hseq I) as (present & Hall & Hreply).
    vm_compute in Hall. injection Hall as <-. exact Hreply.
Defined.

(** ** The handlers on the concrete runtime *)

Lemma stump_setosa_processable : processable Stump.runtime (JObj Stump.setosa_sample).
Proof.
  exists Stump.setosa_sample, Stump.setosa_row, 0%Z, [1; 0; 0]%Q.
  split; [done|]. split; [by vm_compute|].
  split; [by eexists _, _, [], []|]. split; [lia|done].
Qed.

Lemma stump_wide_processable : processable Stump.runtime (JObj Stump.wide_sample).
Proof.
  exists Stump.wide_sample, Stump.wide_row, 2%Z, [0; 1 # 4; 3 # 4]%Q.
  split; [done|]. split; [by vm_compute|].
  split; [by eexists _, _, [], []|]. split; [lia|done].
Qed.

Lemma stump_mixed_processable :
  Forall (processable Stump.runtime) [JObj Stump.setosa_sample; JObj Stump.wide_sample].
Proof.
  repeat constructor; [apply stump_setosa_processable|apply stump_wide_processable].
Qed.

Lemma predict_multiple_no_range_check_witness :
  (∃ entries,
     predict_multiple Stump.runtime (JObj mixed_batch)
     = (batch_calls 2, batch_reply entries)
     ∧ ∃ e species, entries !! 1%nat = Some (JObj e)
         ∧ e !! "predicted_species" = Some (JStr species)
         ∧ species ≠ "unknown")
  ∧ (predict Stump.runtime (JObj Stump.wide_sample)).2 = unknown_reply.
Proof.
  split; [|reflexivity].
  destruct (predict_multiple_no_range_check Stump.runtime mixed_batch
              [JObj Stump.setosa_sample; JObj Stump.wide_sample])
    as (entries & Hreply & Hent);
    [reflexivity | done | apply stump_mixed_processable |].
  exists entries. split; [exact Hreply|].
  destruct (Hent 1%nat (JObj Stump.wide_sample) eq_refl) as (e & species & ? & ? & _ & ?).
  by exists e, species.
Defined.

Lemma predict_multiple_positions_witness :
  ∃ calls reply entries,
    predict_multiple Stump.runtime (JObj mixed_batch) = (calls, reply)
    ∧ field reply "total_samples" = Some (JInt 2)
    ∧ field reply "predictions" = Some (JArr entries)
    ∧ length entries = 2%nat.
Proof.
  destruct (predict_multiple_positions Stump.runtime mixed_batch
              [JObj Stump.setosa_sample; JObj Stump.wide_sample])
    as (calls & reply & entries & Hreply & _ & Htotal & Hpred & Hlen & _);
    [reflexivity | done | apply stump_mixed_processable |].
  by exists calls, reply, entries.
Defined.

(** C6, as stated, fails: the entry of a typical sample in a batch
    reply has a label and a confidence, and no probabilities. *)
Lemma predict_multiple_entry_without_probabilities :
  predict_multiple Stump.runtime (JObj {[ "samples" := JArr [JObj Stump.setosa_sample] ]})
  = (inference_calls,
     batch_reply [batch_reply_entry 0 "setosa" 1 (JObj Stump.setosa_sample)])
  ∧ (∃ e, batch_reply_entry 0 "setosa" 1 (JObj Stump.setosa_sample) = JObj e
          ∧ e !! "probabilities" = None).
Proof. split; [by vm_compute|]. eexists. by split. Qed.

Lemma predict_multiple_entry_shape_witness :
  ∃ calls entries,
    predict_multiple Stump.runtime (JObj mixed_batch) = (calls, batch_reply entries)
    ∧ ∃ e, entries !! 0%nat = Some (JObj e) ∧ e !! "probabilities" = None.
Proof.
  destruct (predict_multiple_entry_shape Stump.runtime mixed_batch
              [JObj Stump.setosa_sample; JObj Stump.wide_sample])
    as (calls & entries & Hreply & Hent);
    [reflexivity | done | apply stump_mixed_processable |].
  exists calls, entries. split; [exact Hreply|].
  destruct (Hent 0%nat (JObj Stump.setosa_sample) eq_refl)
    as (e & _ & _ & _ & _ & _ & _ & He & _ & _ & Hnone & _).
  by exists e.
Defined.

Lemma predict_multiple_aborts_witness :
  ∃ calls e',
    predict_multiple Stump.runtime (JObj broken_batch)
    = (calls, batch_failed_reply Stump.runtime e')
    ∧ field (batch_failed_reply Stump.runtime e') "predictions" = None.
Proof.
  destruct (predict_multiple_aborts Stump.runtime broken_batch
              [JObj Stump.setosa_sample; JObj (delete "petal_width" Stump.wide_sample)]
              1 (JObj (delete "petal_width" Stump.wide_sample))
              [] (KeyError (JStr "petal_width")))
    as (calls & e' & Hreply & _ & _ & Hnone & _);
    [reflexivity | reflexivity | by vm_compute |].
  by exists calls, e'.
Defined.

(** On the broken batch the first sample is processed, and the reply
    still carries the error of the second alone. *)
Example predict_multiple_broken_batch :
  predict_multiple Stump.runtime (JObj broken_batch)
  = (inference_calls,
     batch_failed_reply Stump.runtime (KeyError (JStr "petal_width"))).
Proof. by vm_compute. Qed.

(** ** Every outcome of the handlers *)

Lemma post_ret {A} (a : A) (Q : list call → result A → Prop) :
  Q [] (Ok a) → post (mret a) Q.
Proof. done. Qed.

Lemma post_lift {A B} (r : result A) (f : A → M B)
    (Q : list call → result B → Prop) :
  (∀ a, r = Ok a → post (f a) Q) → (∀ e, r = Raise e → Q [] (Raise e)) →
  post (lift r ≫= f) Q.
Proof.
  intros Hok Hraise. destruct r as [a|e].
  - rewrite bind_lift_ok. by apply Hok.
  - rewrite bind_lift_raise. by apply Hraise.
Qed.

Lemma post_invoke {A B} (c : call) (r : result A) (f : A → M B)
    (Q : list call → result B → Prop) :
  (∀ a, r = Ok a → post (f a) (λ t x, Q (c :: t) x)) →
  (∀ e, r = Raise e → Q [c] (Raise e)) →
  post (invoke c r ≫= f) Q.
Proof.
  intros Hok Hraise. destruct r as [a|e].
  - rewrite bind_invoke_ok. by apply Hok.
  - rewrite bind_invoke_raise. by apply Hraise.
Qed.

Lemma py_index_ok {A} (l : list A) (i : nat) (a : A) :
  py_index l i = Ok a → l !! i = Some a.
Proof. unfold py_index. destruct (l !! i); [|done]. by intros [= ->]. Qed.

Lemma py_max_ok (l : list Q) (top : Q) : py_max l = Ok top → is_max top l.
Proof.
  destruct l as [|x rest]; [done|]. intros H.
  destruct (py_max_spec x rest) as (top' & Htop & Hmax). congruence.
Qed.

Lemma species_of_names (k : Z) (species : string) :
  species_of k = Ok species → species ∈ species_names.
Proof.
  intros H. destruct (species_of_class k (species_of_ok k species H))
    as (species' & Hs & Hin). congruence.
Qed.

(** The body of [predict], then its [except] clause: every way out. *)
Lemma predict_outcomes (R : Runtime) (data : json) :
  predict_outcome R data (predict R data).1 (predict R data).2.
Proof.
  unfold predict.
  assert (post (predict_body R data)
            (λ t x, predict_outcome R data t
               match x with
               | Ok r => r
               | Raise e => prediction_failed_reply R e
               end)) as Hpost.
  2:{ unfold post in Hpost. by destruct (predict_body R data) as [t [r|e]]. }
  unfold predict_body.
  apply post_lift; [intros present Hall|];
    [|intros e He; apply predict_failed; [by eexists|congruence|done]].
  destruct present; cbn [negb]; [|apply post_ret; by apply predict_missing].
  do 6 (apply post_lift; [intros ? ?|];
    [|intros e He; apply predict_failed; [by eexists|congruence|done]]).
  match goal with H : in_typical_range data = Ok ?b |- _ => destruct b end;
    cbn [negb]; [|apply post_ret; by apply predict_unknown].
  apply post_invoke; [intros features_scaled Hsc|];
    [|intros e He; apply predict_failed; [by eexists|congruence|done]].
  apply post_invoke; [intros predictions Hpred|];
    [|intros e He; apply predict_failed; [by eexists|congruence|done]].
  apply post_lift; [intros prediction Hk|];
    [|intros e He; apply predict_failed; [by eexists|congruence|done]].
  apply post_invoke; [intros all_probabilities Hproba|];
    [|intros e He; apply predict_failed; [by eexists|congruence|done]].
  apply post_lift; [intros probabilities Hprobs|];
    [|intros e He; apply predict_failed; [by eexists|congruence|done]].
  apply post_lift; [intros species Hspecies|];
    [|intros e He; apply predict_failed; [by eexists|congruence|done]].
  apply post_lift; [intros confidence Hmax|];
    [|intros e He; apply predict_failed; [by eexists|congruence|done]].
  apply post_lift; [intros p0 Hp0|];
    [|intros e He; apply predict_failed; [by eexists|congruence|done]].
  apply post_lift; [intros p1 Hp1|];
    [|intros e He; apply predict_failed; [by eexists|congruence|done]].
  apply post_lift; [intros p2 Hp2|];
    [|intros e He; apply predict_failed; [by eexists|congruence|done]].
  do 4 (apply post_lift; [intros ? ?|];
    [|intros e He; apply predict_failed; [by eexists|congruence|done]]).
  apply post_ret.
  apply (predict_labelled R data species confidence p0 p1 p2 _ _ _ _ probabilities);
    eauto using species_of_names, py_max_ok, py_index_ok.
Qed.

(** A turn of the loop that raises has made a prefix of the calls of one
    inference. *)
Lemma batch_entry_raise_prefix (R : Runtime) (i : nat) (sample : json)
    (t : list call) (e : exn) :
  batch_entry R i sample = (t, Raise e) → t `prefix_of` inference_calls.
Proof.
  assert (post (batch_entry R i sample)
            (λ t x, match x with
                    | Ok _ => True
                    | Raise _ => t `prefix_of` inference_calls
                    end)) as Hpost.
  2:{ intros H. unfold post in Hpost. by rewrite H in Hpost. }
  unfold batch_entry.
  do 5 (apply post_lift; [intros ? ?|intros; by eexists]).
  do 2 (apply post_invoke; [intros ? ?|intros; by eexists]).
  apply post_lift; [intros ? ?|intros; by eexists].
  apply post_invoke; [intros ? ?|intros; by eexists].
  do 3 (apply post_lift; [intros ? ?|intros; by eexists]).
  by apply post_ret.
Qed.

(** The loop either appends an entry for every sample, all processable,
    or stops at the first sample whose turn raises. *)
Lemma batch_loop_cases (R : Runtime) (samples : list json) :
  ∀ (i : nat) (results : list json),
  (Forall (processable R) samples
   ∧ ∃ entries,
       batch_loop R i samples results
       = (batch_calls (length samples), Ok (results ++ entries)%list)
       ∧ length entries = length samples
       ∧ ∀ (j : nat) (sample : json), samples !! j = Some sample →
           ∃ entry, entries !! j = Some entry ∧ entry_for R (i + j) sample entry)
  ∨ (∃ before sample after t e,
       samples = (before ++ sample :: after)%list
       ∧ Forall (processable R) before
       ∧ batch_entry R (i + length before) sample = (t, Raise e)
       ∧ batch_loop R i samples results
         = ((batch_calls (length before) ++ t)%list, Raise e)).
Proof.
  induction samples as [|first rest IH]; intros i results.
  - left. split; [constructor|]. by apply batch_loop_processable.
  - destruct (batch_entry R i first) as [t [entry|e]] eqn:Hfirst.
    + pose proof (batch_entry_ok R i first t entry Hfirst) as Hproc.
      destruct (IH (S i) results) as [[Hall _] | (before & sample & after & t' & e & -> & Hbefore & Hraise & _)].
      * left. assert (Forall (processable R) (first :: rest)) as Hall' by by constructor.
        split; [done|]. by apply batch_loop_processable.
      * right. exists (first :: before), sample, after, t', e.
        assert (Forall (processable R) (first :: before)) as Hall' by by constructor.
        split; [done|]. split; [done|].
        assert (batch_entry R (i + length (first :: before)) sample = (t', Raise e)) as Hraise'.
        { simpl length. by rewrite Nat.add_succ_r. }
        split; [done|].
        by apply (batch_loop_first_raise R (first :: before) Hall' i results sample after).
    + right. exists [], first, rest, t, e.
      split; [done|]. split; [constructor|].
      assert (batch_entry R (i + length (@nil json)) first = (t, Raise e)) as Hraise.
      { simpl. by rewrite Nat.add_0_r. }
      split; [done|].
      by apply (batch_loop_first_raise R [] ltac:(constructor) i results first rest).
Qed.

Lemma processable_object (R : Runtime) (sample : json) :
  processable R sample → ∃ m, sample = JObj m.
Proof. intros (m & _ & _ & _ & -> & _). by exists m. Qed.

Lemma chars_nonempty (s : string) : s ≠ "" → ∃ c rest, chars s = JStr c :: rest.
Proof. destruct s; [done|]. simpl. eauto. Qed.

(** The body of [predict_multiple], then its [except] clause: every way
    out. *)
Lemma predict_multiple_outcomes (R : Runtime) (data : json) :
  batch_outcome R data (predict_multiple R data).1 (predict_multiple R data).2.
Proof.
  unfold predict_multiple, predict_multiple_body.
  assert (∀ e, batch_outcome R data [] (batch_failed_reply R e)) as Hfail.
  { intros e. apply (batch_failed R data 0 [] e). by eexists. }
  destruct data as [| | | | | | m]; try apply Hfail.
  unfold py_get. rewrite bind_lift_ok.
  destruct (py_truthy (default (JArr []) (m !! "samples"))) eqn:Htruthy; cbn [negb].
  2:{ apply (batch_no_samples R _ m); [done|].
      destruct (m !! "samples") as [v|]; [right|by left].
      exists v. split; [done|]. by apply falsy_truthy. }
  destruct (m !! "samples") as [samples|] eqn:Hsamples; [|done].
  cbn [default from_option id] in *.
  destruct (py_iter samples) as [items|e] eqn:Hiter;
    [rewrite bind_lift_ok|apply Hfail].
  destruct (batch_loop_cases R items 0 [])
    as [(Hall & entries & Hloop & Hlen & Hent)
       | (before & sample & after & t & e & -> & Hbefore & Hraise & Hloop)];
    rewrite Hloop; cbn [mbind M_bind mret M_ret try_except fst snd app].
  - rewrite app_nil_r.
    destruct samples as [| | | | s | l | m']; try done; simpl in Hiter;
      injection Hiter as <-.
    + exfalso. destruct (chars_nonempty s) as (c & rest & Hchars).
      { intros ->. done. }
      rewrite Hchars in Hall. apply Forall_cons in Hall as [Hc _].
      by destruct (processable_object R _ Hc).
    + apply (batch_done R _ m l entries); try done. by destruct l.
    + exfalso. destruct (map_to_list m') as [|[k v] rest] eqn:Hlist.
      * apply map_to_list_empty_iff in Hlist as ->. done.
      * simpl in Hall. apply Forall_cons in Hall as [Hc _].
        by destruct (processable_object R _ Hc).
  - apply (batch_failed R _ (length before) t e).
    by eapply batch_entry_raise_prefix.
Qed.

(** ** What the replies of [predict] always satisfy *)

Lemma prediction_reply_says (species : string) (confidence p0 p1 p2 : Q)
    (m_sl m_sw m_pl m_pw : pyfloat) :
  let r := prediction_reply species confidence p0 p1 p2 m_sl m_sw m_pl m_pw in
  label_of r = Some species ∧ confidence_of r = Some confidence
  ∧ probabilities_of r = Some [p0; p1; p2] ∧ field r "error" = None.
Proof. done. Qed.

Lemma is_max_lookup (x : Q) (l : list Q) (i : nat) (y : Q) :
  is_max x l → l !! i = Some y → (y <= x)%Q.
Proof.
  intros [_ Hall] Hy. rewrite Forall_forall in Hall.
  by eapply Hall, list_elem_of_lookup_2.
Qed.

(** X1: whatever the body and whatever the collaborators do, a reply of
    [predict] with status 200 is either the "unknown" warning, sent
    without any call to the scaler or the classifier, or a prediction sent
    after exactly one inference: its label is one of the three species,
    it carries three probabilities, and its confidence is at least each
    of them. *)
Theorem predict_success_shape (R : Runtime) (data : json) (calls : list call)
    (reply : response) :
  predict R data = (calls, reply) → status reply = 200%Z →
  (calls = [] ∧ reply = unknown_reply)
  ∨ (calls = inference_calls
     ∧ ∃ species confidence probabilities,
         label_of reply = Some species ∧ species ∈ species_names
         ∧ confidence_of reply = Some confidence
         ∧ probabilities_of reply = Some probabilities
         ∧ length probabilities = 3%nat
         ∧ Forall (λ p, (p <= confidence)%Q) probabilities).
Proof.
  intros Hrun Hstatus. pose proof (predict_outcomes R data) as Hout.
  rewrite Hrun in Hout. cbn [fst snd] in Hout.
  destruct Hout as [Hall | Hall Hrange
                   | species confidence p0 p1 p2 ma mb mc md probs
                       Hall Hrange Hin Hmax H0 H1 H2
                   | t e Hprefix Hall Hcalls]; try done.
  - by left.
  - right. split; [done|]. exists species, confidence, [p0; p1; p2].
    destruct (prediction_reply_says species confidence p0 p1 p2 ma mb mc md)
      as (Hl & Hc & Hp & _).
    split; [exact Hl|]. split; [exact Hin|]. split; [exact Hc|].
    split; [exact Hp|]. split; [reflexivity|].
    repeat constructor; by eapply is_max_lookup.
Qed.

Lemma predict_success_shape_witness :
  ∃ species confidence probabilities,
    label_of (predict Stump.runtime (JObj Stump.setosa_sample)).2 = Some species
    ∧ species ∈ species_names
    ∧ confidence_of (predict Stump.runtime (JObj Stump.setosa_sample)).2
      = Some confidence
    ∧ probabilities_of (predict Stump.runtime (JObj Stump.setosa_sample)).2
      = Some probabilities
    ∧ length probabilities = 3%nat
    ∧ Forall (λ p, (p <= confidence)%Q) probabilities.
Proof.
  destruct (predict_success_shape Stump.runtime (JObj Stump.setosa_sample)
              inference_calls (predict Stump.runtime (JObj Stump.setosa_sample)).2)
    as [[Hcalls _] | [_ Hshape]];
    [by vm_compute | by vm_compute | done | exact Hshape].
Defined.

(** X2: [predict] makes at most one inference, in the order scaler,
    [predict], [predict_proba]: its calls are always a prefix of these
    three.  A reply with status 400 is sent without any call. *)
Theorem predict_calls_prefix (R : Runtime) (data : json) :
  (predict R data).1 `prefix_of` inference_calls
  ∧ (status (predict R data).2 = 400%Z → (predict R data).1 = []).
Proof.
  destruct (predict_outcomes R data); split; try done; try by eexists.
Qed.

Lemma required_present_or_missing (m : gmap string json) :
  (∃ row, row_of m = Some row)
  ∨ (∃ key, key ∈ required_features ∧ m !! key = None).
Proof.
  unfold row_of, required_features.
  destruct (m !! "sepal_length") eqn:Ha; [|right; eexists; split; [|exact Ha]; set_solver].
  destruct (m !! "sepal_width") eqn:Hb; [|right; eexists; split; [|exact Hb]; set_solver].
  destruct (m !! "petal_length") eqn:Hc; [|right; eexists; split; [|exact Hc]; set_solver].
  destruct (m !! "petal_width") eqn:Hd; [|right; eexists; split; [|exact Hd]; set_solver].
  left. by eexists.
Qed.

(** X3: on a body that is an object, [predict] answers 400 exactly when
    one of the four feature keys is missing. *)
Theorem predict_400_iff_missing (R : Runtime) (m : gmap string json) :
  status (predict R (JObj m)).2 = 400%Z
  ↔ ∃ key, key ∈ required_features ∧ m !! key = None.
Proof.
  split.
  - intros Hstatus.
    destruct (required_present_or_missing m) as [[row Hrow] | Hmissing]; [|done].
    exfalso. pose proof (py_all_in_row m row Hrow) as Hall.
    destruct (predict_outcomes R (JObj m)); try done. congruence.
  - intros (key & Hkey & Hnone).
    pose proof (py_all_in_missing m key Hkey Hnone) as Hall.
    unfold predict, predict_body. by rewrite Hall, bind_lift_ok.
Qed.

(** X4: [predict] reads the four feature keys of the body and nothing
    else: two objects that agree on them get the same calls and the same
    reply. *)
Theorem predict_ignores_other_keys (R : Runtime) (m m' : gmap string json) :
  (∀ key, key ∈ required_features → m !! key = m' !! key) →
  predict R (JObj m) = predict R (JObj m').
Proof.
  intros Hsame.
  assert (m !! "sepal_length" = m' !! "sepal_length") as Ha
    by (apply Hsame; unfold required_features; set_solver).
  assert (m !! "sepal_width" = m' !! "sepal_width") as Hb
    by (apply Hsame; unfold required_features; set_solver).
  assert (m !! "petal_length" = m' !! "petal_length") as Hc
    by (apply Hsame; unfold required_features; set_solver).
  assert (m !! "petal_width" = m' !! "petal_width") as Hd
    by (apply Hsame; unfold required_features; set_solver).
  unfold predict, predict_body, in_typical_range, in_interval, py_getitem.
  rewrite !py_all_in_dict. unfold required_features. cbn [forallb].
  by rewrite Ha, Hb, Hc, Hd.
Qed.

Lemma predict_ignores_other_keys_witness :
  predict Stump.runtime (JObj (<["note" := JStr "garden"]> Stump.setosa_sample))
  = predict Stump.runtime (JObj Stump.setosa_sample).
Proof.
  apply (predict_ignores_other_keys Stump.runtime).
  intros key Hkey. apply lookup_insert_ne.
  unfold required_features in Hkey. set_solver.
Defined.

(** *** The steps of [predict] on a body with the four keys *)

Ltac predict_to_range_check Hall Ha Hb Hc Hd Hnp Hok :=
  unfold predict, predict_body;
  rewrite Hall, bind_lift_ok; cbn [negb];
  rewrite !(py_getitem_lookup _ _ _ Ha), !(py_getitem_lookup _ _ _ Hb),
    !(py_getitem_lookup _ _ _ Hc), !(py_getitem_lookup _ _ _ Hd);
  rewrite !bind_lift_ok;
  rewrite Hnp, bind_lift_ok, Hok, bind_lift_ok; cbn [negb].

(** The range check of a request within the typical range. *)
Lemma in_typical_range_typical (m : gmap string json) (a b c d : json) :
  row_of m = Some [a; b; c; d] → typical m → in_typical_range (JObj m) = Ok true.
Proof.
  intros Hrow Htyp.
  pose proof (proj1 (typical_lookups m a b c d Hrow) Htyp) as (Wa & Wb & Wc & Wd).
  destruct (in_typical_range_numbers m a b c d Hrow) as (ok & Hok & Hiff);
    eauto using within_number.
  rewrite Hok. f_equal. by apply Hiff.
Qed.

(** A request within the typical range on which the scaler and the
    classifier answer with a known class and three probabilities or
    more: the whole reply. *)
Lemma predict_typical_run (R : Runtime) (m : gmap string json) (a b c d : json)
    (k : Z) (p0 p1 p2 : Q) (more : list Q) (species : string) :
  typical m → row_of m = Some [a; b; c; d] →
  infers R [a; b; c; d] k (p0 :: p1 :: p2 :: more) →
  species_of k = Ok species →
  ∃ confidence qa qb qc qd,
    py_max (p0 :: p1 :: p2 :: more) = Ok confidence
    ∧ real_of a = Some qa ∧ real_of b = Some qb
    ∧ real_of c = Some qc ∧ real_of d = Some qd
    ∧ predict R (JObj m)
      = (inference_calls,
         prediction_reply species confidence p0 p1 p2
           (FFinite qa) (FFinite qb) (FFinite qc) (FFinite qd)).
Proof.
  intros Htyp Hrow (features & features_scaled & ks & rest & Hnp & Hsc & Hpred & Hproba)
    Hspecies.
  pose proof (proj1 (typical_lookups m a b c d Hrow) Htyp) as (Wa & Wb & Wc & Wd).
  pose proof (in_typical_range_typical m a b c d Hrow Htyp) as Hok.
  destruct (py_float_within R 4 8 a ltac:(by vm_compute) ltac:(by vm_compute) Wa)
    as (qa & Ra & Fa).
  destruct (py_float_within R 2 (9 # 2) b ltac:(by vm_compute) ltac:(by vm_compute) Wb)
    as (qb & Rb & Fb).
  destruct (py_float_within R 1 7 c ltac:(by vm_compute) ltac:(by vm_compute) Wc)
    as (qc & Rc & Fc).
  destruct (py_float_within R float_0_1 (5 # 2) d ltac:(by vm_compute)
              ltac:(by vm_compute) Wd) as (qd & Rd & Fd).
  destruct (py_max_spec p0 (p1 :: p2 :: more)) as (top & Htop & _).
  pose proof (py_all_in_row m _ Hrow) as Hall.
  apply row_of_lookups in Hrow as (Ha & Hb & Hc & Hd).
  exists top, qa, qb, qc, qd. do 5 (split; [done|]).
  predict_to_range_check Hall Ha Hb Hc Hd Hnp Hok.
  rewrite Hsc, bind_invoke_ok, Hpred, bind_invoke_ok.
  rewrite py_index_head, bind_lift_ok, Hproba, bind_invoke_ok.
  rewrite py_index_head, bind_lift_ok.
  rewrite Hspecies, bind_lift_ok, Htop, bind_lift_ok.
  rewrite !py_index_tail, !py_index_head, !bind_lift_ok.
  cbn [mbind result_bind]. rewrite Fa, Fb, Fc, Fd. rewrite !bind_lift_ok.
  reflexivity.
Qed.

Lemma species_of_unknown_class (k : Z) :
  ¬ (0 ≤ k ≤ 2)%Z → species_of k = Raise (KeyError (JInt k)).
Proof.
  intros Hk. unfold species_of, SPECIES_MAP.
  rewrite lookup_insert_ne, lookup_insert_ne, lookup_singleton_ne; [done|lia..].
Qed.



(** X6: in a prediction reply [measurements] holds the four inputs
    converted to floats, with their values unchanged: an integer 5 comes
    back as the float 5.0. *)
Theorem predict_measurements_as_floats (R : Runtime) (m : gmap string json)
    (a b c d : json) (k : Z) (p0 p1 p2 : Q) (more : list Q) :
  typical m → row_of m = Some [a; b; c; d] →
  infers R [a; b; c; d] k (p0 :: p1 :: p2 :: more) → (0 ≤ k ≤ 2)%Z →
  ∃ qa qb qc qd,
    real_of a = Some qa ∧ real_of b = Some qb
    ∧ real_of c = Some qc ∧ real_of d = Some qd
    ∧ field (predict R (JObj m)).2 "measurements"
      = Some (JObj {[ "sepal_length" := JFloat (FFinite qa);
                      "sepal_width" := JFloat (FFinite qb);
                      "petal_length" := JFloat (FFinite qc);
                      "petal_width" := JFloat (FFinite qd) ]}).
Proof.
  intros Htyp Hrow Hinf Hk.
  destruct (species_of_class k Hk) as (species & Hspecies & _).
  destruct (predict_typical_run R m a b c d k p0 p1 p2 more species
              Htyp Hrow Hinf Hspecies)
    as (confidence & qa & qb & qc & qd & _ & Ra & Rb & Rc & Rd & Hrun).
  exists qa, qb, qc, qd. do 4 (split; [done|]). by rewrite Hrun.
Qed.

Lemma stump_setosa_typical : typical Stump.setosa_sample.
Proof.
  apply (typical_lookups _ (JInt 5) (JFloat (FFinite (7 # 2)))
           (JFloat (FFinite (3 # 2))) (JFloat (FFinite (1 # 4)))); [by vm_compute|].
  repeat split; (eexists; split; [reflexivity|]; by vm_compute).
Qed.

Lemma predict_measurements_as_floats_witness :
  field (predict Stump.runtime (JObj Stump.setosa_sample)).2 "measurements"
  = Some (JObj {[ "sepal_length" := JFloat (FFinite 5);
                  "sepal_width" := JFloat (FFinite (7 # 2));
                  "petal_length" := JFloat (FFinite (3 # 2));
                  "petal_width" := JFloat (FFinite (1 # 4)) ]}).
Proof.
  destruct (predict_measurements_as_floats Stump.runtime Stump.setosa_sample
              (JInt 5) (JFloat (FFinite (7 # 2))) (JFloat (FFinite (3 # 2)))
              (JFloat (FFinite (1 # 4))) 0 1 0 0 [])
    as (qa & qb & qc & qd & [= <-] & [= <-] & [= <-] & [= <-] & Hfield).
  - apply stump_setosa_typical.
  - by vm_compute.
  - by eexists _, _, [], [].
  - lia.
  - exact Hfield.
Defined.

(** X7: when a collaborator raises on a request within the typical range,
    [predict] answers 500 with the message of that exception, and the
    operations after the failing one are not invoked: a failing scaler
    leaves the classifier uncalled, a failing [predict] leaves
    [predict_proba] uncalled. *)
Theorem predict_collaborator_failure (R : Runtime) (m : gmap string json)
    (row : list json) (features : ndarray R) :
  typical m → row_of m = Some row → np_array R [row] = Ok features →
  match scaler_transform R features with
  | Raise e => predict R (JObj m) = ([ScalerTransform], prediction_failed_reply R e)
  | Ok features_scaled =>
      match model_predict R features_scaled with
      | Raise e =>
          predict R (JObj m)
          = ([ScalerTransform; ModelPredict], prediction_failed_reply R e)
      | Ok (_ :: _) =>
          match model_predict_proba R features_scaled with
          | Raise e =>
              predict R (JObj m) = (inference_calls, prediction_failed_reply R e)
          | Ok _ => True
          end
      | Ok [] =>
          predict R (JObj m)
          = ([ScalerTransform; ModelPredict], prediction_failed_reply R IndexError)
      end
  end.
Proof.
  intros Htyp Hrow Hnp.
  destruct (row_of_four m row Hrow) as (a & b & c & d & -> & Ha & Hb & Hc & Hd).
  pose proof (in_typical_range_typical m a b c d Hrow Htyp) as Hok.
  pose proof (py_all_in_row m _ Hrow) as Hall.
  destruct (scaler_transform R features) as [features_scaled|e] eqn:Hsc.
  2:{ predict_to_range_check Hall Ha Hb Hc Hd Hnp Hok. by rewrite Hsc. }
  destruct (model_predict R features_scaled) as [[|k ks]|e] eqn:Hpred.
  - predict_to_range_check Hall Ha Hb Hc Hd Hnp Hok.
    by rewrite Hsc, bind_invoke_ok, Hpred, bind_invoke_ok.
  - destruct (model_predict_proba R features_scaled) as [probas|e] eqn:Hproba; [done|].
    predict_to_range_check Hall Ha Hb Hc Hd Hnp Hok.
    rewrite Hsc, bind_invoke_ok, Hpred, bind_invoke_ok.
    by rewrite py_index_head, bind_lift_ok, Hproba.
  - predict_to_range_check Hall Ha Hb Hc Hd Hnp Hok.
    by rewrite Hsc, bind_invoke_ok, Hpred.
Qed.

Lemma predict_collaborator_failure_witness :
  predict Faulty.unfitted (JObj Stump.setosa_sample)
  = ([ScalerTransform],
     prediction_failed_reply Faulty.unfitted (LibraryError "scaler is not fitted")).
Proof.
  apply (predict_collaborator_failure Faulty.unfitted Stump.setosa_sample
           Stump.setosa_row [Stump.setosa_row]).
  - apply stump_setosa_typical.
  - by vm_compute.
  - reflexivity.
Defined.

(** X8: when the classifier answers with a class index that is not 0, 1
    or 2, [predict] answers 500 with the KeyError of that index, after the
    whole inference. *)
Theorem predict_unknown_class (R : Runtime) (m : gmap string json)
    (row : list json) (k : Z) (probs : list Q) :
  typical m → row_of m = Some row → infers R row k probs → ¬ (0 ≤ k ≤ 2)%Z →
  predict R (JObj m)
  = (inference_calls, prediction_failed_reply R (KeyError (JInt k))).
Proof.
  intros Htyp Hrow (features & features_scaled & ks & rest & Hnp & Hsc & Hpred & Hproba) Hk.
  destruct (row_of_four m row Hrow) as (a & b & c & d & -> & Ha & Hb & Hc & Hd).
  pose proof (in_typical_range_typical m a b c d Hrow Htyp) as Hok.
  pose proof (py_all_in_row m _ Hrow) as Hall.
  predict_to_range_check Hall Ha Hb Hc Hd Hnp Hok.
  rewrite Hsc, bind_invoke_ok, Hpred, bind_invoke_ok.
  rewrite py_index_head, bind_lift_ok, Hproba, bind_invoke_ok.
  rewrite py_index_head, bind_lift_ok.
  by rewrite (species_of_unknown_class k Hk).
Qed.

Lemma predict_unknown_class_witness :
  predict Faulty.four_classes (JObj Stump.setosa_sample)
  = (inference_calls, prediction_failed_reply Faulty.four_classes (KeyError (JInt 3))).
Proof.
  apply (predict_unknown_class Faulty.four_classes Stump.setosa_sample
           Stump.setosa_row 3 [0; 0; 1 # 4; 3 # 4]%Q).
  - apply stump_setosa_typical.
  - by vm_compute.
  - by eexists _, _, [], [].
  - lia.
Defined.

(** X9: [predict] needs three class probabilities, [predict_multiple]
    needs one.  With a classifier that answers with one or two
    probabilities, [predict] answers 500 with an IndexError after the
    whole inference, while a batch of that one sample is answered with
    status 200. *)
Theorem predict_needs_three_probabilities (R : Runtime) (m : gmap string json)
    (row : list json) (k : Z) (probs : list Q) :
  typical m → row_of m = Some row → infers R row k probs → (0 ≤ k ≤ 2)%Z →
  probs ≠ [] → (length probs < 3)%nat →
  predict R (JObj m) = (inference_calls, prediction_failed_reply R IndexError)
  ∧ status (predict_multiple R (JObj {[ "samples" := JArr [JObj m] ]})).2 = 200%Z.
Proof.
  intros Htyp Hrow Hinf Hk Hne Hlen. split.
  - destruct Hinf as (features & features_scaled & ks & rest & Hnp & Hsc & Hpred & Hproba).
    destruct (row_of_four m row Hrow) as (a & b & c & d & -> & Ha & Hb & Hc & Hd).
    pose proof (in_typical_range_typical m a b c d Hrow Htyp) as Hok.
    pose proof (py_all_in_row m _ Hrow) as Hall.
    destruct (species_of_class k Hk) as (species & Hspecies & _).
    destruct probs as [|p0 probs]; [done|].
    destruct (py_max_spec p0 probs) as (top & Htop & _).
    predict_to_range_check Hall Ha Hb Hc Hd Hnp Hok.
    rewrite Hsc, bind_invoke_ok, Hpred, bind_invoke_ok.
    rewrite py_index_head, bind_lift_ok, Hproba, bind_invoke_ok.
    rewrite py_index_head, bind_lift_ok.
    rewrite Hspecies, bind_lift_ok, Htop, bind_lift_ok.
    rewrite py_index_head, bind_lift_ok.
    destruct probs as [|p1 [|p2 probs]]; [done|done|simpl in Hlen; lia].
  - destruct (predict_multiple_processable R {[ "samples" := JArr [JObj m] ]} [JObj m])
      as (entries & Hreply & _); [by rewrite lookup_singleton_eq | done | |].
    + repeat constructor. by exists m, row, k, probs.
    + by rewrite Hreply.
Qed.

Lemma predict_needs_three_probabilities_witness :
  predict Faulty.two_classes (JObj Stump.setosa_sample)
  = (inference_calls, prediction_failed_reply Faulty.two_classes IndexError)
  ∧ status (predict_multiple Faulty.two_classes
              (JObj {[ "samples" := JArr [JObj Stump.setosa_sample] ]})).2 = 200%Z.
Proof.
  apply (predict_needs_three_probabilities Faulty.two_classes Stump.setosa_sample
           Stump.setosa_row 1 [1 # 4; 3 # 4]%Q).
  - apply stump_setosa_typical.
  - by vm_compute.
  - by eexists _, _, [], [].
  - lia.
  - done.
  - simpl. lia.
Defined.

(** ** What the replies of [predict_multiple] always satisfy *)

(** X10: [predict_multiple] answers 200 exactly when the body is an
    object whose [samples] is a non-empty list of samples that all have
    the four keys and on which the scaler and the classifier answer with
    a known class and at least one probability. *)
Theorem predict_multiple_200_iff (R : Runtime) (data : json) :
  status (predict_multiple R data).2 = 200%Z
  ↔ ∃ m samples,
      data = JObj m ∧ m !! "samples" = Some (JArr samples) ∧ samples ≠ []
      ∧ Forall (processable R) samples.
Proof.
  split.
  - intros Hstatus.
    destruct (predict_multiple_outcomes R data)
      as [m Hdata Hnone | m samples entries Hdata Hsamples Hne Hall Hlen Hent
         | j t e Hprefix]; try done.
    by exists m, samples.
  - intros (m & samples & -> & Hsamples & Hne & Hall).
    destruct (predict_multiple_processable R m samples Hsamples Hne Hall)
      as (entries & Hreply & _).
    by rewrite Hreply.
Qed.


(** X12: [predict_multiple] stops at the first sample that fails.  When
    the samples before it all process, the calls are one inference for
    each of them followed by the calls of the failing turn, the reply is
    the 500 of the exception of that turn, and nothing is invoked for the
    samples after it. *)
Theorem predict_multiple_first_failure (R : Runtime) (data : gmap string json)
    (before : list json) (sample : json) (after : list json)
    (t : list call) (e : exn) :
  data !! "samples" = Some (JArr (before ++ sample :: after)) →
  Forall (processable R) before →
  batch_entry R (length before) sample = (t, Raise e) →
  predict_multiple R (JObj data)
  = ((batch_calls (length before) ++ t)%list, batch_failed_reply R e).
Proof.
  intros Hdata Hbefore Hraise.
  unfold predict_multiple, predict_multiple_body, py_get.
  rewrite Hdata. cbn [default from_option id]. rewrite bind_lift_ok.
  rewrite py_truthy_nonempty by (by destruct before).
  cbn [negb py_iter]. rewrite bind_lift_ok.
  by rewrite (batch_loop_first_raise R before Hbefore 0 [] sample after t e Hraise).
Qed.

Lemma predict_multiple_first_failure_witness :
  predict_multiple Stump.runtime
    (JObj {[ "samples" := JArr [JObj Stump.setosa_sample; JNull;
                                JObj Stump.wide_sample] ]})
  = (inference_calls, batch_failed_reply Stump.runtime (TypeError "subscript")).
Proof.
  apply (predict_multiple_first_failure Stump.runtime _
           [JObj Stump.setosa_sample] JNull [JObj Stump.wide_sample] []
           (TypeError "subscript")).
  - reflexivity.
  - repeat constructor. apply stump_setosa_processable.
  - reflexivity.
Defined.

(** The first missing key of a sample is the key of its KeyError. *)
Lemma batch_entry_first_missing (R : Runtime) (i : nat) (m : gmap string json)
    (key : string) :
  key ∈ required_features → m !! key = None →
  ∃ key', key' ∈ required_features ∧ m !! key' = None
          ∧ batch_entry R i (JObj m) = ([], Raise (KeyError (JStr key'))).
Proof.
  intros Hkey Hnone.
  destruct (required_present_or_missing m) as [[row Hrow] | _].
  { exfalso. destruct (row_of_four m row Hrow) as (a & b & c & d & _ & Ha & Hb & Hc & Hd).
    unfold required_features in Hkey. set_solver. }
  unfold batch_entry, py_getitem, required_features.
  destruct (m !! "sepal_length") as [a|] eqn:Ha;
    [|eexists; split; [|split; [exact Ha|done]]; set_solver].
  destruct (m !! "sepal_width") as [b|] eqn:Hb;
    [|eexists; split; [|split; [exact Hb|done]]; set_solver].
  destruct (m !! "petal_length") as [c|] eqn:Hc;
    [|eexists; split; [|split; [exact Hc|done]]; set_solver].
  destruct (m !! "petal_width") as [d|] eqn:Hd;
    [|eexists; split; [|split; [exact Hd|done]]; set_solver].
  exfalso. unfold required_features in Hkey. set_solver.
Qed.

(** X13: a sample that lacks a feature key is not answered with a 400:
    after the samples before it are processed, the batch ends with the
    500 of a KeyError that names a missing key of the sample, and neither
    the scaler nor the classifier is invoked for that sample. *)
Theorem predict_multiple_missing_key (R : Runtime) (data : gmap string json)
    (before : list json) (m : gmap string json) (after : list json)
    (key : string) :
  data !! "samples" = Some (JArr (before ++ JObj m :: after)) →
  Forall (processable R) before →
  key ∈ required_features → m !! key = None →
  ∃ key', key' ∈ required_features ∧ m !! key' = None
    ∧ predict_multiple R (JObj data)
      = (batch_calls (length before),
         batch_failed_reply R (KeyError (JStr key'))).
Proof.
  intros Hdata Hbefore Hkey Hnone.
  destruct (batch_entry_first_missing R (length before) m key Hkey Hnone)
    as (key' & Hkey' & Hnone' & Hraise).
  exists key'. split; [done|]. split; [done|].
  unfold predict_multiple, predict_multiple_body, py_get.
  rewrite Hdata. cbn [default from_option id]. rewrite bind_lift_ok.
  rewrite py_truthy_nonempty by (by destruct before).
  cbn [negb py_iter]. rewrite bind_lift_ok.
  rewrite (batch_loop_first_raise R before Hbefore 0 [] (JObj m) after [] _ Hraise).
  by rewrite app_nil_r.
Qed.

Lemma predict_multiple_missing_key_witness :
  ∃ key', key' ∈ required_features
    ∧ delete "petal_width" Stump.wide_sample !! key' = None
    ∧ predict_multiple Stump.runtime (JObj broken_batch)
      = (batch_calls 1, batch_failed_reply Stump.runtime (KeyError (JStr key'))).
Proof.
  apply (predict_multiple_missing_key Stump.runtime broken_batch
           [JObj Stump.setosa_sample] (delete "petal_width" Stump.wide_sample) []
           "petal_width").
  - reflexivity.
  - repeat constructor. apply stump_setosa_processable.
  - unfold required_features. set_solver.
  - by vm_compute.
Defined.

(** X14: the calls of [predict_multiple] are always some whole
    inferences followed by a prefix of one: the classifier is never
    invoked on a sample before the scaler, and no inference is made for a
    reply of status 400. *)
Theorem predict_multiple_calls_shape (R : Runtime) (data : json) :
  (∃ (j : nat) (t : list call),
     (predict_multiple R data).1 = (batch_calls j ++ t)%list
     ∧ t `prefix_of` inference_calls)
  ∧ (status (predict_multiple R data).2 = 400%Z → (predict_multiple R data).1 = []).
Proof.
  destruct (predict_multiple_outcomes R data)
    as [m Hdata Hnone | m samples entries Hdata Hsamples Hne Hall Hlen Hent
       | j t e Hprefix]; (split; [|done]).
  - exists 0%nat, []. split; [done|by eexists].
  - exists (length samples), []. split; [by rewrite app_nil_r|by eexists].
  - by exists j, t.
Qed.

(** X15: [predict_multiple] takes nothing but a list for [samples].  A
    body that is not an object gets the 500 of an AttributeError; a
    [samples] that is true and is not a list (a number, a non-empty
    string or object) gets the 500 of a TypeError.  No inference is made
    in either case. *)
Theorem predict_multiple_not_a_list (R : Runtime) (data : json) :
  ((∀ m, data ≠ JObj m) →
   predict_multiple R data = ([], batch_failed_reply R (AttributeError "get")))
  ∧ (∀ m v, data = JObj m → m !! "samples" = Some v → ¬ falsy v →
       (∀ l, v ≠ JArr l) →
       ∃ what, predict_multiple R data = ([], batch_failed_reply R (TypeError what))).
Proof.
  split.
  - intros Hdata. destruct data as [| | | | | | m]; try done. by destruct (Hdata m).
  - intros m v -> Hsamples Hfalsy Hlist.
    assert (py_truthy v = true) as Htruthy.
    { apply not_false_is_true. by rewrite <- falsy_truthy. }
    unfold predict_multiple, predict_multiple_body, py_get.
    rewrite Hsamples. cbn [default from_option id].
    rewrite bind_lift_ok, Htruthy. cbn [negb].
    destruct v as [| | | | s | l | m']; try (by eexists); [| by destruct (Hlist l) |].
    + destruct (chars_nonempty s) as (c & rest & Hchars).
      { intros ->. done. }
      cbn [py_iter]. rewrite bind_lift_ok, Hchars. by eexists.
    + destruct (map_to_list m') as [|[k x] rest] eqn:Hitems.
      { apply map_to_list_empty_iff in Hitems as ->. done. }
      cbn [py_iter]. rewrite bind_lift_ok, Hitems. by eexists.
Qed.

Lemma predict_multiple_not_a_list_witness :
  predict_multiple Stump.runtime (JArr [JObj Stump.setosa_sample])
  = ([], batch_failed_reply Stump.runtime (AttributeError "get"))
  ∧ ∃ what,
      predict_multiple Stump.runtime (JObj {[ "samples" := JObj Stump.setosa_sample ]})
      = ([], batch_failed_reply Stump.runtime (TypeError what)).
Proof.
  split.
  - by apply (predict_multiple_not_a_list Stump.runtime (JArr [JObj Stump.setosa_sample])).
  - destruct (predict_multiple_not_a_list Stump.runtime
                (JObj {[ "samples" := JObj Stump.setosa_sample ]})) as [_ Hsamples].
    apply (Hsamples _ (JObj Stump.setosa_sample) eq_refl); [reflexivity | | done].
    intros Hfalsy%falsy_truthy. by vm_compute in Hfalsy.
Defined.

(** One turn of the loop on a sample on which the scaler and the
    classifier answer: the entry. *)
Lemma batch_entry_run (R : Runtime) (i : nat) (m : gmap string json)
    (row : list json) (k : Z) (probs : list Q) (species : string) (confidence : Q) :
  row_of m = Some row → infers R row k probs →
  species_of k = Ok species → py_max probs = Ok confidence →
  batch_entry R i (JObj m)
  = (inference_calls, Ok (batch_reply_entry i species confidence (JObj m))).
Proof.
  intros Hrow (features & features_scaled & ks & rest & Hnp & Hsc & Hpred & Hproba)
    Hspecies Hmax.
  destruct (row_of_four m row Hrow) as (a & b & c & d & -> & Ha & Hb & Hc & Hd).
  unfold batch_entry.
  rewrite (py_getitem_lookup m _ a Ha), (py_getitem_lookup m _ b Hb),
    (py_getitem_lookup m _ c Hc), (py_getitem_lookup m _ d Hd).
  rewrite !bind_lift_ok.
  rewrite Hnp, bind_lift_ok, Hsc, bind_invoke_ok, Hpred, bind_invoke_ok.
  rewrite py_index_head, bind_lift_ok, Hproba, bind_invoke_ok.
  rewrite py_index_head, bind_lift_ok.
  by rewrite Hspecies, bind_lift_ok, Hmax, bind_lift_ok.
Qed.

(** The entries that the loop appends are the entries of the turns. *)
Lemma batch_loop_exact (R : Runtime) (samples : list json) :
  ∀ (i : nat) (results : list json) (t : list call) (entries : list json),
  batch_loop R i samples results = (t, Ok entries) →
  ∃ new, entries = (results ++ new)%list
    ∧ ∀ (j : nat) (sample : json), samples !! j = Some sample →
        ∃ entry, new !! j = Some entry
                 ∧ batch_entry R (i + j) sample = (inference_calls, Ok entry).
Proof.
  induction samples as [|first rest IH]; intros i results t entries Hloop.
  - injection Hloop as <- <-. exists []. by rewrite app_nil_r.
  - cbn [batch_loop] in Hloop.
    destruct (batch_entry R i first) as [t0 [entry|e]] eqn:Hfirst; [|done].
    destruct (batch_entry_processable R i first (batch_entry_ok R i first t0 entry Hfirst))
      as (entry' & Hentry' & _).
    rewrite Hfirst in Hentry'. injection Hentry' as -> <-.
    cbn [mbind M_bind] in Hloop.
    destruct (batch_loop R (S i) rest (results ++ [entry])%list) as [t' r] eqn:Hrest.
    injection Hloop as <- ->.
    destruct (IH (S i) _ t' entries Hrest) as (new & -> & Hnew).
    exists (entry :: new). split; [by rewrite <- app_assoc|].
    intros [|j] sample Hj; simpl in Hj.
    + injection Hj as <-. exists entry. by rewrite Nat.add_0_r.
    + destruct (Hnew j sample Hj) as (e' & He' & Hrun). exists e'.
      split; [done|]. by rewrite Nat.add_succ_r.
Qed.

(** X16: the two handlers agree on a sample within the typical range: the
    entry of the sample in a successful batch reply has the label and the
    confidence of the reply of [predict] to that sample alone. *)
Theorem predict_agrees_with_batch (R : Runtime) (data : gmap string json)
    (samples : list json) (j : nat) (m : gmap string json) (a b c d : json)
    (k : Z) (p0 p1 p2 : Q) (more : list Q) :
  data !! "samples" = Some (JArr samples) → Forall (processable R) samples →
  samples !! j = Some (JObj m) →
  typical m → row_of m = Some [a; b; c; d] →
  infers R [a; b; c; d] k (p0 :: p1 :: p2 :: more) → (0 ≤ k ≤ 2)%Z →
  ∃ species confidence entries e,
    label_of (predict R (JObj m)).2 = Some species
    ∧ confidence_of (predict R (JObj m)).2 = Some confidence
    ∧ field (predict_multiple R (JObj data)).2 "predictions" = Some (JArr entries)
    ∧ entries !! j = Some (JObj e)
    ∧ e !! "predicted_species" = Some (JStr species)
    ∧ e !! "confidence" = Some (JFloat (FFinite confidence)).
Proof.
  intros Hdata Hall Hj Htyp Hrow Hinf Hk.
  destruct (species_of_class k Hk) as (species & Hspecies & _).
  destruct (predict_typical_run R m a b c d k p0 p1 p2 more species
              Htyp Hrow Hinf Hspecies)
    as (confidence & qa & qb & qc & qd & Hmax & _ & _ & _ & _ & Hrun).
  destruct (batch_loop_processable R samples Hall 0 []) as (entries & Hloop & _ & _).
  destruct (batch_loop_exact R samples 0 [] _ _ Hloop) as (new & Hnew & Hexact).
  cbn [app] in Hnew. subst new.
  destruct (Hexact j (JObj m) Hj) as (entry & Hentry & Hturn).
  change (0 + j)%nat with j in Hturn.
  rewrite (batch_entry_run R j m _ k _ species confidence Hrow Hinf Hspecies Hmax)
    in Hturn.
  injection Hturn as Hturn.
  destruct (batch_reply_entry_fields j species confidence (JObj m))
    as (e & Heq & _ & Hlabel & Hconf & _).
  rewrite <- Hturn, Heq in Hentry.
  exists species, confidence, entries, e.
  rewrite Hrun.
  destruct (prediction_reply_says species confidence p0 p1 p2
              (FFinite qa) (FFinite qb) (FFinite qc) (FFinite qd)) as (Hl & Hc & _).
  split; [exact Hl|]. split; [exact Hc|].
  split; [|by split].
  unfold predict_multiple, predict_multiple_body, py_get.
  rewrite Hdata. cbn [default from_option id]. rewrite bind_lift_ok.
  rewrite py_truthy_nonempty by (intros ->; done).
  cbn [negb py_iter]. rewrite bind_lift_ok, Hloop. reflexivity.
Qed.

Lemma predict_agrees_with_batch_witness :
  ∃ species confidence entries e,
    label_of (predict Stump.runtime (JObj Stump.setosa_sample)).2 = Some species
    ∧ confidence_of (predict Stump.runtime (JObj Stump.setosa_sample)).2
      = Some confidence
    ∧ field (predict_multiple Stump.runtime (JObj mixed_batch)).2 "predictions"
      = Some (JArr entries)
    ∧ entries !! 0%nat = Some (JObj e)
    ∧ e !! "predicted_species" = Some (JStr species)
    ∧ e !! "confidence" = Some (JFloat (FFinite confidence)).
Proof.
  apply (predict_agrees_with_batch Stump.runtime mixed_batch
           [JObj Stump.setosa_sample; JObj Stump.wide_sample] 0 Stump.setosa_sample
           (JInt 5) (JFloat (FFinite (7 # 2))) (JFloat (FFinite (3 # 2)))
           (JFloat (FFinite (1 # 4))) 0 1 0 0 []).
  - reflexivity.
  - apply stump_mixed_processable.
  - reflexivity.
  - apply stump_setosa_typical.
  - by vm_compute.
  - by eexists _, _, [], [].
  - lia.
Defined.

(** ** The range check, exactly *)

Lemma chained_le_accepted (lo hi : Q) (x : json) :
  chained_le lo x hi = Ok true ↔ accepted lo hi x.
Proof.
  unfold chained_le, accepted.
  destruct (as_number x) as [[v| | |]|]; simpl.
  - split.
    + intros [= H]. apply andb_true_iff in H as [H1 H2].
      exists v. by rewrite <- !Qle_bool_iff.
    + intros (v' & [= <-] & H1 & H2). f_equal.
      apply andb_true_iff. by rewrite !Qle_bool_iff.
  - split; [done|]. by intros (v & [=] & _).
  - split; [done|]. by intros (v & [=] & _).
  - split; [done|]. by intros (v & [=] & _).
  - split; [done|]. by intros (v & [=] & _).
Qed.

Lemma in_typical_range_accepted (m : gmap string json) (a b c d : json) :
  row_of m = Some [a; b; c; d] →
  in_typical_range (JObj m) = Ok true
  ↔ accepted 4 8 a ∧ accepted 2 (9 # 2) b ∧ accepted 1 7 c
    ∧ accepted float_0_1 (5 # 2) d.
Proof.
  intros (Ha & Hb & Hc & Hd)%row_of_lookups.
  rewrite <- !chained_le_accepted. unfold in_typical_range.
  rewrite (in_interval_lookup m _ _ _ a Ha), (in_interval_lookup m _ _ _ b Hb),
    (in_interval_lookup m _ _ _ c Hc), (in_interval_lookup m _ _ _ d Hd).
  destruct (chained_le 4 a 8) as [[|]|]; simpl; [|naive_solver..].
  destruct (chained_le 2 b (9 # 2)) as [[|]|]; simpl; [|naive_solver..].
  destruct (chained_le 1 c 7) as [[|]|]; simpl; [|naive_solver..].
  naive_solver.
Qed.

(** X17: on a float, the lower bound of the petal width test, the literal
    [0.1], cuts exactly at one tenth: a float passes the test of line 81
    exactly when it lies between one tenth and 2.5. *)
Theorem petal_width_bounds (q : Q) :
  dyadic53 q →
  chained_le float_0_1 (JFloat (FFinite q)) (5 # 2) = Ok true
  ↔ ((1 # 10) <= q)%Q ∧ (q <= 5 # 2)%Q.
Proof.
  intros Hq. rewrite chained_le_accepted. unfold accepted. simpl.
  pose proof (float_0_1_tenth q Hq) as Htenth. split.
  - intros (v & [= <-] & H1 & H2). tauto.
  - intros [H1 H2]. exists q. tauto.
Qed.

Lemma petal_width_bounds_witness :
  chained_le float_0_1 (JFloat (FFinite (1 # 8))) (5 # 2) = Ok true
  ↔ ((1 # 10) <= 1 # 8)%Q ∧ ((1 # 8) <= 5 # 2)%Q.
Proof.
  apply (petal_width_bounds (1 # 8)).
  exists 1%Z, 3%nat. split; [by vm_compute|]. left. by vm_compute.
Defined.

Lemma try_except_calls (m : M response) (handler : exn → response) :
  (try_except m handler).1 = m.1.
Proof. by destruct m as [t [r|e]]. Qed.

(** X18: on an object with the four keys that numpy takes, [predict]
    goes on to the scaler exactly when each of the four values is an
    integer, a float or a boolean, finite and within its interval: 4 to 8,
    2 to 4.5, 1 to 7 and 0.1 to 2.5.  A boolean counts as 0 or 1. *)
Theorem predict_infers_iff_accepted (R : Runtime) (m : gmap string json)
    (a b c d : json) :
  row_of m = Some [a; b; c; d] → builds R m →
  (predict R (JObj m)).1 ≠ []
  ↔ accepted 4 8 a ∧ accepted 2 (9 # 2) b ∧ accepted 1 7 c
    ∧ accepted float_0_1 (5 # 2) d.
Proof.
  intros Hrow (row & features & Hrow' & Hnp).
  rewrite Hrow in Hrow'. injection Hrow' as <-.
  rewrite <- (in_typical_range_accepted m a b c d Hrow). split.
  - intros Hcalls.
    destruct (predict_outcomes R (JObj m)) as [| | | t e Hprefix Hall Hrange];
      try done. by apply Hrange.
  - intros Hok.
    pose proof (py_all_in_row m _ Hrow) as Hall.
    apply row_of_lookups in Hrow as (Ha & Hb & Hc & Hd).
    predict_to_range_check Hall Ha Hb Hc Hd Hnp Hok.
    rewrite try_except_calls.
    destruct (scaler_transform R features) as [features_scaled|e].
    + by rewrite bind_invoke_ok.
    + by rewrite bind_invoke_raise.
Qed.

Lemma predict_infers_iff_accepted_witness :
  (predict Stump.runtime
     (JObj (<["petal_length" := JBool true]> Stump.setosa_sample))).1 ≠ [].
Proof.
  apply (predict_infers_iff_accepted Stump.runtime _
           (JInt 5) (JFloat (FFinite (7 # 2))) (JBool true) (JFloat (FFinite (1 # 4)))).
  - by vm_compute.
  - eexists _, _. split; [by vm_compute|reflexivity].
  - repeat split; (eexists; split; [reflexivity|]; by vm_compute).
Defined.

(** ** All the replies of the service *)

(** X19: every reply that a handler of the service sends has one of the
    statuses 200, 400, 404, 405 and 500, and it has an [error] field
    exactly when its status is not 200. *)
Theorem served_error_field (R : Runtime) (r : response) :
  served R r →
  status r ∈ [200; 400; 404; 405; 500]%Z
  ∧ (status r = 200%Z ↔ field r "error" = None).
Proof.
  assert (∀ z : Z, z ∈ [200; 400; 404; 405; 500]%Z
                   ↔ z = 200%Z ∨ z = 400%Z ∨ z = 404%Z ∨ z = 405%Z ∨ z = 500%Z)
    as Hin by set_solver.
  intros [ | data | data | E error | E error]; rewrite Hin.
  - split; [by left|done].
  - destruct (predict_outcomes R data); (split; [|done]); tauto.
  - destruct (predict_multiple_outcomes R data); (split; [|done]); tauto.
  - split; [tauto|done].
  - split; [tauto|done].
Qed.

Lemma served_error_field_witness :
  status (predict Stump.runtime JNull).2 ∈ [200; 400; 404; 405; 500]%Z
  ∧ (status (predict Stump.runtime JNull).2 = 200%Z
     ↔ field (predict Stump.runtime JNull).2 "error" = None).
Proof.
  apply (served_error_field Stump.runtime). apply served_predict.
Defined.

Lemma predict_calls_prefix_witness :
  (predict Stump.runtime (JObj Stump.setosa_sample)).1 `prefix_of` inference_calls
  ∧ (status (predict Stump.runtime (JObj (delete "petal_width" Stump.setosa_sample))).2
     = 400%Z →
     (predict Stump.runtime (JObj (delete "petal_width" Stump.setosa_sample))).1 = []).
Proof.
  split.
  - apply (predict_calls_prefix Stump.runtime (JObj Stump.setosa_sample)).
  - apply (predict_calls_prefix Stump.runtime
             (JObj (delete "petal_width" Stump.setosa_sample))).
Defined.

Lemma predict_multiple_calls_shape_witness :
  ∃ (j : nat) (t : list call),
    (predict_multiple Stump.runtime (JObj broken_batch)).1 = (batch_calls j ++ t)%list
    ∧ t `prefix_of` inference_calls.
Proof.
  apply (predict_multiple_calls_shape Stump.runtime (JObj broken_batch)).
Defined.
